(** * Context Lens knowledge base: the tool boundary and the document service

    A shallow embedding of [src/mcp_knowledge_base/server.py] (the four MCP
    tools and the lazily created service singleton) and of
    [src/mcp_knowledge_base/services/document_service.py] (the orchestrator
    [DocumentService]).

    Python values are embedded as follows.
    - [str] is a sequence of Unicode code points, [list N]; [len], [s[:n]]
      and [+] are [length], [take] and [++]; [str.strip] removes the code
      points for which [str.isspace] holds. A literal of the source is
      written as a Rocq string and read through [lit].
    - [int] is [Z]; [Optional[int]] is [option Z].
    - [float] is an IEEE 754 binary64 number: a finite double by its exact
      rational value, the negative zero, the two infinities and NaN.
      Subtraction rounds the exact difference to the nearest double, ties
      to even; [round(x, 4)] rounds the exact value of [x] to four decimals,
      ties to even, and takes the nearest double of that decimal.
    - a [dict] with string keys is a [gmap string value].
    - an [async def] that may raise is a computation in the monad [M]: it
      threads the world (the persisted store, the module global
      [_document_service], the pending faults of the collaborators) and
      ends in [Ret v] or in [Raise e]; a mutation made before a raise stays
      made, as in Python.

    The collaborators whose sources are not part of this development (the
    LanceDB manager, the embedding service, the content extractor, the
    [errors] module) are modelled from the specification; each such
    definition says so. The chunker, which only counts and copies the
    characters of a text, takes the text as a Rocq [string]. It and the
    interleavings of concurrent first calls of [get_document_service] come
    last. *)

From Stdlib Require Import Ascii QArith Qround Qabs Lqa.
From stdpp Require Import base list strings gmap pretty sorting.
From Equations Require Import Equations.

#[local] Set Warnings "-register-all".
#[local] Open Scope string_scope.
#[local] Open Scope Z_scope.

(** ** Strings *)

(** A character is a Unicode code point. *)
Definition char := N.

Definition str := list char.

(** A string literal of the source; its characters are ASCII. *)
Definition lit (s : string) : str := map N_of_ascii (String.list_ascii_of_string s).

Coercion lit : string >-> str.

(** [s + t] *)
Definition str_app (s t : str) : str := (s ++ t)%list.

Declare Scope str_scope.
Infix "+:+" := str_app (at level 60, right associativity) : str_scope.
#[local] Open Scope str_scope.

(** [s == t] *)
Fixpoint str_eqb (s t : str) : bool :=
  match s, t with
  | [], [] => true
  | c :: s', d :: t' => (c =? d)%N && str_eqb s' t'
  | _, _ => false
  end.

(** [s[:n]] for [0 <= n]. *)
Definition str_prefix (n : nat) (s : str) : str := take n s.

(** [str.isspace] of one character: the code points Python counts as
    whitespace, which are U+0009..U+000D, U+001C..U+0020, U+0085, U+00A0,
    U+1680, U+2000..U+200A, U+2028, U+2029, U+202F, U+205F and U+3000. *)
Definition isspace (c : char) : bool :=
  ((9 <=? c) && (c <=? 13) || (28 <=? c) && (c <=? 32) ||
   (c =? 133) || (c =? 160) || (c =? 5760) ||
   (8192 <=? c) && (c <=? 8202) ||
   (c =? 8232) || (c =? 8233) || (c =? 8239) || (c =? 8287) || (c =? 12288))%N.

Fixpoint lstrip (s : str) : str :=
  match s with
  | c :: s' => if isspace c then lstrip s' else s
  | [] => []
  end.

Fixpoint rstrip (s : str) : str :=
  match s with
  | c :: s' =>
      match rstrip s' with
      | [] => if isspace c then [] else [c]
      | r => c :: r
      end
  | [] => []
  end.

(** [str.strip()] *)
Definition strip (s : str) : str := rstrip (lstrip s).

(** ** Floats *)

(** Nearest integer, ties to the even one. *)
Definition round_half_even (x : Q) : Z :=
  let f := Qfloor x in
  match Qcompare (x - inject_Z f) (1 # 2) with
  | Lt => f
  | Gt => f + 1
  | Eq => if Z.even f then f else f + 1
  end.

(** A binary64 number. [Finite q] is the finite double of exact value [q],
    [Finite 0] the positive zero. *)
Inductive float :=
| Finite (q : Q)
| NegZero
| Inf (negative : bool)
| NaN.

(** The finite doubles are the multiples [n * 2^-1074] whose integer [n] has
    at most 53 significant bits. [ulps q], for [0 <= q], is the [n] of the
    double nearest to [q], ties to the even mantissa: [q * 2^1074] is
    rounded to a multiple of [2^k], where [k] leaves 53 bits. *)
Definition ulps (q : Q) : Z :=
  let s := (q * inject_Z (2 ^ 1074))%Q in
  let k := Z.max (Z.log2 (Qfloor s) - 52) 0 in
  round_half_even (s / inject_Z (2 ^ k)) * 2 ^ k.

(** The double of magnitude [n * 2^-1074]; from [2^1024] on the rounding
    overflows to an infinity. *)
Definition of_ulps (negative : bool) (n : Z) : float :=
  if 2 ^ 2098 <=? n then Inf negative
  else if n =? 0 then (if negative then NegZero else Finite 0)
  else Finite (Qred (Qmake (if negative then - n else n) (Z.to_pos (2 ^ 1074)))).

(** The double nearest to the rational [q]: the rounding of every
    arithmetic operation and of a decimal literal. An exact zero is the
    positive zero. *)
Definition fl (q : Q) : float :=
  match Qcompare q 0 with
  | Eq => Finite 0
  | Gt => of_ulps false (ulps q)
  | Lt => of_ulps true (ulps (- q))
  end.

(** [1.0] *)
Definition one : float := Finite 1.

(** [x - y] *)
Definition fsub (x y : float) : float :=
  match x, y with
  | NaN, _ | _, NaN => NaN
  | Inf a, Inf b => if Bool.eqb a b then NaN else Inf a
  | Inf a, _ => Inf a
  | _, Inf b => Inf (negb b)
  | NegZero, NegZero => Finite 0
  | NegZero, Finite q => if Qeq_bool q 0 then NegZero else fl (- q)
  | Finite p, NegZero => Finite p
  | Finite p, Finite q => fl (p - q)
  end.

(** [abs(x)] *)
Definition fabs (x : float) : float :=
  match x with
  | Finite q => Finite (Qabs q)
  | NegZero => Finite 0
  | Inf _ => Inf false
  | NaN => NaN
  end.

(** [round(x, ndigits)] of a float: the exact value is rounded to
    [ndigits] decimals, ties to even, and the result is the double nearest
    to that decimal; the sign of [x] is kept when the result is zero;
    infinities and NaN are returned as they are. *)
Definition py_round (x : float) (ndigits : nat) : float :=
  match x with
  | Finite q =>
      let scale := inject_Z (10 ^ Z.of_nat ndigits) in
      let n := round_half_even (q * scale) in
      match n, Qcompare q 0 with
      | 0, Lt => NegZero
      | _, _ => fl (inject_Z n / scale)
      end
  | _ => x
  end.

(** [x <= y]; the two zeros are equal, NaN compares with nothing. *)
Definition fle (x y : float) : Prop :=
  match x, y with
  | NaN, _ | _, NaN => False
  | Inf true, _ | _, Inf false => True
  | Inf false, _ | _, Inf true => False
  | Finite p, Finite q => (p <= q)%Q
  | Finite p, NegZero => (p <= 0)%Q
  | NegZero, Finite q => (0 <= q)%Q
  | NegZero, NegZero => True
  end.

(** ** Python values *)

Inductive value :=
| VNone
| VBool (b : bool)
| VInt (z : Z)
| VFloat (x : float)
| VStr (s : str)
| VList (l : list value)
| VDict (d : gmap string value).

Abbreviation dict := (gmap string value).

Definition VOptInt (o : option Z) : value :=
  match o with Some z => VInt z | None => VNone end.

Definition VOptStr (o : option str) : value :=
  match o with Some s => VStr s | None => VNone end.

(** [dict.update]: the keys of [extra] win. *)
Definition dict_update (d extra : dict) : dict := extra ∪ d.

(** ** Exceptions *)

(** The exception classes the two modules name, and [PyException] for any
    other subclass of [Exception]. [KnowledgeBaseError] and
    [FileProcessingError] carry the [error_type], the message and the
    details they were raised with. *)
Inductive exn :=
| ParameterValidationError (message : str) (details : dict)
| KnowledgeBaseError (error_type message : str) (details : dict)
| FileProcessingError (error_type message : str) (details : dict)
| RuntimeError (message : str)
| PyException (message : str).

(** [str(e)] *)
Definition str_exn (e : exn) : str :=
  match e with
  | ParameterValidationError m _ => m
  | KnowledgeBaseError _ m _ => m
  | FileProcessingError _ m _ => m
  | RuntimeError m => m
  | PyException m => m
  end.

Inductive outcome (A : Type) :=
| Ret (a : A)
| Raise (e : exn).
Arguments Ret {A} a.
Arguments Raise {A} e.

(** ** [models.data_models] *)

(** [datetime], as seconds since the epoch. *)
Definition datetime := Z.

Module data_models.

Record DocumentMetadata := {
  id : str;
  file_path : str;
  file_name : str;
  file_size : Z;
  file_type : str;
  content_hash : str;
  ingestion_timestamp : option datetime;
  chunk_count : Z
}.

Definition embedding_vector := list float.

Record DocumentChunk := {
  chunk_id : str;
  document_id : str;
  chunk_index : Z;
  content : str;
  embedding : option embedding_vector
}.

(** What [search_vectors] yields for one chunk: the owning document, the raw
    content and the raw distance. *)
Record VectorSearchResult := {
  vr_document_id : str;
  vr_content : str;
  score : float
}.

(** [SearchResult], as the keyword arguments of its construction in
    [search_documents]. *)
Record SearchResult := {
  sr_document_id : str;
  document_path : str;
  relevance_score : float;
  content_excerpt : str;
  metadata : DocumentMetadata
}.

End data_models.
Export data_models.

(** ** The world *)

(** The state of one [DocumentService] object. *)
Record DocumentService_obj := { _initialized : bool }.

(** [documents] and [chunks] are the two persisted tables, in ingestion
    order. [_document_service] is the module global of [server.py]. Each
    call into a collaborator takes the head of [faults]: [Some e] makes that
    call raise [e]. [raised] counts the faults that have fired. *)
Record World := {
  documents : list DocumentMetadata;
  chunks : list DocumentChunk;
  _document_service : option DocumentService_obj;
  faults : list (option exn);
  raised : nat
}.

Definition set_tables (ds : list DocumentMetadata) (cs : list DocumentChunk) (w : World) : World :=
  {| documents := ds; chunks := cs; _document_service := _document_service w;
     faults := faults w; raised := raised w |}.

Definition set_document_service (o : option DocumentService_obj) (w : World) : World :=
  {| documents := documents w; chunks := chunks w; _document_service := o;
     faults := faults w; raised := raised w |}.

(** ** The monad of effectful calls *)

Definition M (A : Type) : Type := World -> outcome A * World.

Definition ret {A} (a : A) : M A := fun w => (Ret a, w).

Definition raise {A} (e : exn) : M A := fun w => (Raise e, w).

Definition bind {A B} (m : M A) (k : A -> M B) : M B :=
  fun w =>
    match m w with
    | (Ret a, w') => k a w'
    | (Raise e, w') => (Raise e, w')
    end.

(** [try: m  except <classes matched by h>: ...]; [h e = None] lets [e]
    pass. *)
Definition try_except {A} (m : M A) (h : exn -> option (M A)) : M A :=
  fun w =>
    match m w with
    | (Ret a, w') => (Ret a, w')
    | (Raise e, w') =>
        match h e with
        | Some handler => handler w'
        | None => (Raise e, w')
        end
    end.

(** Reading and updating the world. *)
Definition gets {A} (f : World -> A) : M A := fun w => (Ret (f w), w).

Definition modify (f : World -> World) : M unit := fun w => (Ret tt, f w).

Notation "x <- m ;; k" := (bind m (fun x => k))
  (at level 100, m at next level, right associativity).
Notation "m ;;; k" := (bind m (fun _ => k))
  (at level 100, right associativity).

(** A call that leaves this development: it raises when the environment
    says so. *)
Definition collaborator : M unit :=
  fun w =>
    match faults w with
    | [] => (Ret tt, w)
    | None :: fs =>
        (Ret tt, {| documents := documents w; chunks := chunks w;
                    _document_service := _document_service w;
                    faults := fs; raised := raised w |})
    | Some e :: fs =>
        (Raise e, {| documents := documents w; chunks := chunks w;
                     _document_service := _document_service w;
                     faults := fs; raised := S (raised w) |})
    end.

(** ** [config] *)

Module config.

(** The fields of the configuration that the document service reads. *)
Record EmbeddingConfig := { model : str }.

Record ProcessingConfig := {
  chunk_size : Z;
  chunk_overlap : Z;
  supported_extensions : list str
}.

Record Config := {
  embedding : EmbeddingConfig;
  processing : ProcessingConfig
}.

End config.

(** ** The environment *)

(** What the outside world answers: the text units and metadata the content
    extractor produces for a path, the vectors of the embedding model, the
    matches the nearest-neighbour index picks among the stored chunks, the
    clock and the ISO rendering of a time. Nothing is assumed of them. *)
Record Env := {
  read_and_chunk : str -> DocumentMetadata * list DocumentChunk;
  embed_batch : list str -> list embedding_vector;
  embed : str -> embedding_vector;
  nearest : list DocumentChunk -> embedding_vector -> Z -> list VectorSearchResult;
  utcnow : datetime;
  isoformat : datetime -> str
}.

(** ** [processors.content_extractor] *)

Module ContentExtractor.

(** Modelled from the spec: [ContentExtractor.extract_and_chunk], whose
    module is absent. "[extract_and_chunk(path)] yields the metadata and the
    ordered sequence of chunks, or fails with a file-processing error." *)
Definition extract_and_chunk (E : Env) (path : str) : M (DocumentMetadata * list DocumentChunk) :=
  collaborator ;;; ret (read_and_chunk E path).

End ContentExtractor.

(** ** [services.embedding_service] *)

Module EmbeddingService.

(** Modelled from the spec: [EmbeddingService], whose module is absent.
    "[generate_embedding(text)] yields a vector, [generate_embeddings] one
    vector per input, in order; [load_model()] and [cleanup()] control the
    lifecycle"; each may fail. *)
Definition load_model : M unit := collaborator.

Definition generate_embeddings (E : Env) (texts : list str) : M (list embedding_vector) :=
  collaborator ;;; ret (embed_batch E texts).

Definition generate_embedding (E : Env) (text : str) : M embedding_vector :=
  collaborator ;;; ret (embed E text).

Definition cleanup : M unit := collaborator.

End EmbeddingService.

(** ** [storage.lancedb_manager] *)

Module LanceDBManager.

(** Modelled from the spec: [LanceDBManager], whose module is absent. Every
    operation is all-or-nothing: a failure leaves the tables as they were.

    "[initialize_database()]: idempotent; creates the two logical tables if
    absent." *)
Definition initialize_database : M unit := collaborator.

(** Modelled from the spec: "[add_document_vectors(metadata, chunks)]
    persists metadata and all chunks for one document as a single logical
    unit." *)
Definition add_document_vectors (md : DocumentMetadata) (cs : list DocumentChunk) : M unit :=
  collaborator ;;;
  modify (fun w => set_tables (documents w ++ [md]) (chunks w ++ cs) w).

(** Modelled from the spec: "[list_all_documents(limit, offset)] returns
    documents in ingestion order; [offset] skips that many records, [limit]
    caps the count returned; [limit = none] means unbounded." *)
Definition list_all_documents (limit : option Z) (offset : Z) : M (list DocumentMetadata) :=
  collaborator ;;;
  all <- gets documents ;;
  let rest := drop (Z.to_nat offset) all in
  ret (match limit with
       | Some l => take (Z.to_nat l) rest
       | None => rest
       end).

(** Modelled from the spec: "[get_document_count()]: total documents
    currently stored." *)
Definition get_document_count : M Z :=
  collaborator ;;;
  all <- gets documents ;;
  ret (Z.of_nat (length all)).

(** Modelled from the spec: "[get_document_metadata(document_id)]: point
    lookup; returns none if absent." *)
Definition get_document_metadata (document_id : str) : M (option DocumentMetadata) :=
  collaborator ;;;
  all <- gets documents ;;
  ret (find (fun d => str_eqb (id d) document_id) all).

(** Modelled from the spec: "[search_vectors(query_vector, limit)] returns
    chunk-level matches, each carrying the source [document_id], raw
    [content] and the raw distance [score]"; which matches is the index's
    answer. *)
Definition search_vectors (E : Env) (query_vector : embedding_vector) (limit : Z) : M (list VectorSearchResult) :=
  collaborator ;;;
  stored <- gets chunks ;;
  ret (nearest E stored query_vector limit).

(** Modelled from the spec: "[clear_all_documents()] deletes every document
    and chunk record; returns the count of documents removed; must be
    all-or-nothing." *)
Definition clear_all_documents : M Z :=
  collaborator ;;;
  all <- gets documents ;;
  modify (set_tables [] []) ;;;
  ret (Z.of_nat (length all)).

Definition close : M unit := collaborator.

End LanceDBManager.

(** ** [errors] *)

Module errors.

(** Modelled from the spec: the [errors] module, which is absent. "Every
    response is a structured result carrying [success] and either a payload
    or an [error_type] + [error_message] + [error_details] triple." *)
Definition envelope (error_type error_message : str) (error_details : dict) : dict :=
  {[ "success" := VBool false;
     "error_type" := VStr error_type;
     "error_message" := VStr error_message;
     "error_details" := VDict error_details ]}.

(** Modelled from the spec: the machine-checkable [error_type] of each error
    kind. *)
Definition error_type_of (e : exn) : str :=
  match e with
  | ParameterValidationError _ _ => "parameter_validation_error"
  | KnowledgeBaseError t _ _ => t
  | FileProcessingError t _ _ => t
  | RuntimeError _ => "internal_error"
  | PyException _ => "internal_error"
  end.

Definition details_of (e : exn) : dict :=
  match e with
  | ParameterValidationError _ d => d
  | KnowledgeBaseError _ _ d => d
  | FileProcessingError _ _ d => d
  | RuntimeError _ => ∅
  | PyException _ => ∅
  end.

(** Modelled from the spec: [KnowledgeBaseError.to_dict]. *)
Definition to_dict (e : exn) : dict :=
  envelope (error_type_of e) (str_exn e) (details_of e).

(** Modelled from the spec: [create_error_response(error, context)], "a
    catch-all error wrapping unexpected failures with enough context (path,
    query, limit/offset) to diagnose". *)
Definition create_error_response (e : exn) (context : dict) : dict :=
  envelope (error_type_of e) (str_exn e) (dict_update (details_of e) context).

Definition parameter_error (parameter message : str) (v : value) : exn :=
  ParameterValidationError message {[ "parameter" := VStr parameter; "value" := v ]}.

(** Modelled from the spec: the four validators, "parameter-validation
    error (bad/missing input before any I/O)", with the bounds their call
    sites pass. *)
Definition validate_file_path (file_path : str) : M unit :=
  if str_eqb (strip file_path) ""
  then raise (parameter_error "file_path" "file_path cannot be empty" (VStr file_path))
  else ret tt.

Definition validate_query_parameter (query : str) (min_length max_length : Z) : M unit :=
  if ((Z.of_nat (length (strip query)) <? min_length)
      || (max_length <? Z.of_nat (length query)))%Z
  then raise (parameter_error "query" "query length out of range" (VStr query))
  else ret tt.

Definition validate_limit_parameter (limit : option Z) (min_value max_value : Z) (parameter_name : str) : M unit :=
  match limit with
  | None => ret tt
  | Some l =>
      if ((l <? min_value) || (max_value <? l))%Z
      then raise (parameter_error parameter_name (parameter_name +:+ " out of range") (VInt l))
      else ret tt
  end.

Definition validate_offset_parameter (offset max_value : Z) : M unit :=
  if ((offset <? 0) || (max_value <? offset))%Z
  then raise (parameter_error "offset" "offset out of range" (VInt offset))
  else ret tt.

End errors.

(** ** [services.document_service]: class [DocumentService] *)

Module DocumentService.

(** [DocumentService(config)]: the fresh object. *)
Definition __init__ : DocumentService_obj := {| _initialized := false |}.

(** [initialize]; it assigns [self._initialized], so it hands back the new
    state of [self], which the caller stores where the object lives. *)
Definition initialize (self : DocumentService_obj) : M DocumentService_obj :=
  try_except
    (LanceDBManager.initialize_database ;;;
     EmbeddingService.load_model ;;;
     ret {| _initialized := true |})
    (fun e => Some (raise (PyException ("Document service initialization failed: " +:+ str_exn e)))).

Definition _ensure_initialized (self : DocumentService_obj) : M unit :=
  if _initialized self
  then ret tt
  else raise (RuntimeError "Document service not initialized. Call initialize() first.").

Definition set_ingestion_timestamp (t : datetime) (md : DocumentMetadata) : DocumentMetadata :=
  {| id := id md; file_path := file_path md; file_name := file_name md;
     file_size := file_size md; file_type := file_type md;
     content_hash := content_hash md; ingestion_timestamp := Some t;
     chunk_count := chunk_count md |}.

Definition set_embedding (v : embedding_vector) (c : DocumentChunk) : DocumentChunk :=
  {| chunk_id := chunk_id c; document_id := document_id c;
     chunk_index := chunk_index c; content := content c; embedding := Some v |}.

(** [for chunk, embedding in zip(chunks, embeddings): chunk.embedding = embedding] *)
Fixpoint assign_embeddings (cs : list DocumentChunk) (es : list embedding_vector) : list DocumentChunk :=
  match cs, es with
  | c :: cs', e :: es' => set_embedding e c :: assign_embeddings cs' es'
  | _, _ => cs
  end.

Definition len_str {A} (l : list A) : string := pretty (Z.of_nat (length l)).

Definition add_document (E : Env) (self : DocumentService_obj) (file_path : str) : M dict :=
  _ensure_initialized self ;;;
  try_except
    (extracted <-
       try_except
         (mc <- ContentExtractor.extract_and_chunk E file_path ;; ret (inr mc))
         (fun e =>
            match e with
            | FileProcessingError t m d =>
                Some (ret (inl ({[ "success" := VBool false;
                                   "error_type" := VStr t;
                                   "error_message" := VStr m;
                                   "error_details" := VDict d ]} : dict)))
            | _ => None
            end) ;;
     match extracted with
     | inl response => ret response
     | inr (metadata0, chunks0) =>
         let metadata := set_ingestion_timestamp (utcnow E) metadata0 in
         chunks1 <-
           match chunks0 with
           | [] => ret chunks0
           | _ :: _ =>
               embeddings <- EmbeddingService.generate_embeddings E (map content chunks0) ;;
               ret (assign_embeddings chunks0 embeddings)
           end ;;
         LanceDBManager.add_document_vectors metadata chunks1 ;;;
         ret ({[ "success" := VBool true;
                 "document" := VDict
                   {[ "id" := VStr (id metadata);
                      "file_path" := VStr (data_models.file_path metadata);
                      "file_name" := VStr (file_name metadata);
                      "file_size" := VInt (file_size metadata);
                      "file_type" := VStr (file_type metadata);
                      "ingestion_timestamp" := VStr (isoformat E (utcnow E));
                      "content_hash" := VStr (content_hash metadata);
                      "chunk_count" := VInt (chunk_count metadata) ]};
                 "message" := VStr ("Document '" +:+ file_name metadata
                                      +:+ "' added successfully with "
                                      +:+ len_str chunks1 +:+ " chunks") ]} : dict)
     end)
    (fun e =>
       Some (ret ({[ "success" := VBool false;
                     "error_type" := VStr "document_ingestion_error";
                     "error_message" := VStr ("Failed to add document: " +:+ str_exn e);
                     "error_details" := VDict {[ "file_path" := VStr file_path;
                                                 "error" := VStr (str_exn e) ]} ]} : dict))).

Definition document_to_dict (E : Env) (doc : DocumentMetadata) : value :=
  VDict {[ "id" := VStr (id doc);
           "file_path" := VStr (file_path doc);
           "file_name" := VStr (file_name doc);
           "file_size" := VInt (file_size doc);
           "file_type" := VStr (file_type doc);
           "ingestion_timestamp" := VOptStr (isoformat E <$> ingestion_timestamp doc);
           "content_hash" := VStr (content_hash doc);
           "chunk_count" := VInt (chunk_count doc) ]}.

Definition list_documents (E : Env) (self : DocumentService_obj) (limit : option Z) (offset : Z) : M dict :=
  _ensure_initialized self ;;;
  try_except
    (docs <- LanceDBManager.list_all_documents limit offset ;;
     let document_list := map (document_to_dict E) docs in
     total_count <- LanceDBManager.get_document_count ;;
     let n := Z.of_nat (length document_list) in
     ret ({[ "success" := VBool true;
             "documents" := VList document_list;
             "pagination" := VDict {[ "total_count" := VInt total_count;
                                      "returned_count" := VInt n;
                                      "offset" := VInt offset;
                                      "limit" := VOptInt limit ]};
             "message" := VStr ("Found " +:+ pretty n +:+ " documents"
                                +:+ (if (n <? total_count)%Z
                                     then " (showing " +:+ pretty (offset + 1) +:+ "-"
                                          +:+ pretty (offset + n) +:+ " of "
                                          +:+ pretty total_count +:+ ")"
                                     else "")) ]} : dict))
    (fun e =>
       Some (ret ({[ "success" := VBool false;
                     "error_type" := VStr "document_listing_error";
                     "error_message" := VStr ("Failed to list documents: " +:+ str_exn e);
                     "error_details" := VDict {[ "limit" := VOptInt limit;
                                                 "offset" := VInt offset;
                                                 "error" := VStr (str_exn e) ]} ]} : dict))).

(** The excerpt of a chunk: [excerpt[:200] + "..."] when [len(excerpt) > 200]. *)
Definition make_excerpt (chunk_content : str) : str :=
  if (200 <? length chunk_content)%nat
  then str_prefix 200 chunk_content +:+ "..."
  else chunk_content.

Definition make_search_result (vector_result : VectorSearchResult) (doc_metadata : DocumentMetadata) : SearchResult :=
  {| sr_document_id := vr_document_id vector_result;
     document_path := file_path doc_metadata;
     relevance_score := fsub one (score vector_result);
     content_excerpt := make_excerpt (vr_content vector_result);
     metadata := doc_metadata |}.

(** The loop over [vector_results]; [search_results] is the list built so
    far. *)
Fixpoint join_metadata (vector_results : list VectorSearchResult) (search_results : list SearchResult) : M (list SearchResult) :=
  match vector_results with
  | [] => ret search_results
  | vector_result :: rest =>
      doc_metadata <- LanceDBManager.get_document_metadata (vr_document_id vector_result) ;;
      join_metadata rest
        (match doc_metadata with
         | Some md => search_results ++ [make_search_result vector_result md]
         | None => search_results
         end)
  end.

Definition result_to_dict (E : Env) (result : SearchResult) : value :=
  VDict {[ "document_id" := VStr (sr_document_id result);
           "document_path" := VStr (document_path result);
           "relevance_score" := VFloat (py_round (relevance_score result) 4);
           "content_excerpt" := VStr (content_excerpt result);
           "metadata" := VDict
             {[ "id" := VStr (id (metadata result));
                "file_name" := VStr (file_name (metadata result));
                "file_type" := VStr (file_type (metadata result));
                "file_size" := VInt (file_size (metadata result));
                "ingestion_timestamp" :=
                  VOptStr (isoformat E <$> ingestion_timestamp (metadata result));
                "chunk_count" := VInt (chunk_count (metadata result)) ]} ]}.

Definition search_documents (E : Env) (self : DocumentService_obj) (query : str) (limit : Z) : M dict :=
  _ensure_initialized self ;;;
  try_except
    (if str_eqb (strip query) ""
     then ret ({[ "success" := VBool false;
                  "error_type" := VStr "invalid_query";
                  "error_message" := VStr "Search query cannot be empty";
                  "error_details" := VDict {[ "query" := VStr query ]} ]} : dict)
     else
       query_embedding <- EmbeddingService.generate_embedding E (strip query) ;;
       match query_embedding with
       | [] => ret ({[ "success" := VBool false;
                       "error_type" := VStr "embedding_generation_error";
                       "error_message" := VStr "Failed to generate embedding for query";
                       "error_details" := VDict {[ "query" := VStr query ]} ]} : dict)
       | _ :: _ =>
           vector_results <- LanceDBManager.search_vectors E query_embedding limit ;;
           search_results <- join_metadata vector_results [] ;;
           let results_list := map (result_to_dict E) search_results in
           let n := Z.of_nat (length results_list) in
           ret ({[ "success" := VBool true;
                   "results" := VList results_list;
                   "query" := VStr query;
                   "result_count" := VInt n;
                   "message" := VStr ("Found " +:+ pretty n +:+ " relevant documents"
                                      +:+ (if (n =? limit)%Z
                                           then " (showing top " +:+ pretty limit +:+ ")"
                                           else "")) ]} : dict)
       end)
    (fun e =>
       Some (ret ({[ "success" := VBool false;
                     "error_type" := VStr "document_search_error";
                     "error_message" := VStr ("Failed to search documents: " +:+ str_exn e);
                     "error_details" := VDict {[ "query" := VStr query;
                                                 "limit" := VInt limit;
                                                 "error" := VStr (str_exn e) ]} ]} : dict))).

Definition clear_knowledge_base (self : DocumentService_obj) : M dict :=
  _ensure_initialized self ;;;
  try_except
    (documents_removed <- LanceDBManager.clear_all_documents ;;
     ret ({[ "success" := VBool true;
             "documents_removed" := VInt documents_removed;
             "message" := VStr ("Successfully cleared " +:+ pretty documents_removed
                                +:+ " documents from the knowledge base") ]} : dict))
    (fun e =>
       Some (ret ({[ "success" := VBool false;
                     "error_type" := VStr "knowledge_base_clear_error";
                     "error_message" := VStr ("Failed to clear knowledge base: " +:+ str_exn e);
                     "error_details" := VDict {[ "error" := VStr (str_exn e) ]} ]} : dict))).

(** [get_document_by_id]: any failure of the lookup is logged and answered
    with [None]. *)
Definition get_document_by_id (E : Env) (self : DocumentService_obj) (document_id : str) : M (option dict) :=
  _ensure_initialized self ;;;
  try_except
    (metadata <- LanceDBManager.get_document_metadata document_id ;;
     match metadata with
     | Some metadata =>
         ret (Some ({[ "id" := VStr (id metadata);
                       "file_path" := VStr (file_path metadata);
                       "file_name" := VStr (file_name metadata);
                       "file_size" := VInt (file_size metadata);
                       "file_type" := VStr (file_type metadata);
                       "ingestion_timestamp" :=
                         VOptStr (isoformat E <$> ingestion_timestamp metadata);
                       "content_hash" := VStr (content_hash metadata);
                       "chunk_count" := VInt (chunk_count metadata) ]} : dict))
     | None => ret None
     end)
    (fun _ => Some (ret None)).

(** [get_statistics]; [cfg] is [self.config], the configuration the service
    was built with. *)
Definition get_statistics (cfg : config.Config) (self : DocumentService_obj) : M dict :=
  _ensure_initialized self ;;;
  try_except
    (document_count <- LanceDBManager.get_document_count ;;
     ret ({[ "document_count" := VInt document_count;
             "embedding_model" := VStr (config.model (config.embedding cfg));
             "chunk_size" := VInt (config.chunk_size (config.processing cfg));
             "supported_file_types" :=
               VList (VStr <$> config.supported_extensions (config.processing cfg)) ]} : dict))
    (fun _ =>
       Some (ret ({[ "document_count" := VInt 0;
                     "embedding_model" := VStr "unknown";
                     "chunk_size" := VInt 0;
                     "supported_file_types" := VList [] ]} : dict))).

(** [cleanup]: it hands back the new state of [self]; [_initialized] is
    reset only after both collaborators were released, and any failure is
    logged and swallowed. *)
Definition cleanup (self : DocumentService_obj) : M DocumentService_obj :=
  try_except
    (EmbeddingService.cleanup ;;;
     LanceDBManager.close ;;;
     ret {| _initialized := false |})
    (fun _ => Some (ret self)).

End DocumentService.

(** ** [server]: the tool boundary *)

Module server.

(** [Config.from_env()] and the constructor [DocumentService(config)] read
    the process environment and open the storage: calls that may fail. *)
Definition Config_from_env : M unit := collaborator.

Definition DocumentService_new : M DocumentService_obj :=
  collaborator ;;; ret DocumentService.__init__.

Definition assign_document_service (o : option DocumentService_obj) : M unit :=
  modify (set_document_service o).

(** The global is assigned before [initialize()] is awaited; [initialize]
    then sets the flag of that same object. *)
Definition get_document_service : M DocumentService_obj :=
  current <- gets _document_service ;;
  match current with
  | None =>
      Config_from_env ;;;
      fresh <- DocumentService_new ;;
      assign_document_service (Some fresh) ;;;
      ready <- DocumentService.initialize fresh ;;
      assign_document_service (Some ready) ;;;
      ret ready
  | Some doc_service => ret doc_service
  end.

(** The three [except] clauses of a tool, in order. Both error classes of
    the [errors] module answer with their own [to_dict()]. *)
Definition handlers (context : dict) (e : exn) : option (M dict) :=
  Some (ret (match e with
             | ParameterValidationError _ _ => errors.to_dict e
             | KnowledgeBaseError _ _ _ => errors.to_dict e
             | _ => errors.create_error_response e context
             end)).

(** A handler reads [file_path] as it stands when the exception is raised:
    the argument while it is validated, the stripped path afterwards. *)
Definition add_document (E : Env) (file_path : str) : M dict :=
  let context (p : str) : dict :=
    {[ "file_path" := VStr p; "operation" := VStr "add_document" ]} in
  try_except
    (errors.validate_file_path file_path ;;;
     let file_path := strip file_path in
     try_except
       (doc_service <- get_document_service ;;
        DocumentService.add_document E doc_service file_path)
       (handlers (context file_path)))
    (handlers (context file_path)).

Definition list_documents (E : Env) (limit : option Z) (offset : Z) : M dict :=
  let limit := match limit with Some 0 => None | _ => limit end in
  try_except
    (errors.validate_limit_parameter limit 1 1000 "limit" ;;;
     errors.validate_offset_parameter offset 100000 ;;;
     doc_service <- get_document_service ;;
     DocumentService.list_documents E doc_service limit offset)
    (handlers {[ "limit" := VOptInt limit; "offset" := VInt offset;
                 "operation" := VStr "list_documents" ]}).

(** As for [add_document], [query] is stripped once it has been validated. *)
Definition search_documents (E : Env) (query : str) (limit : Z) : M dict :=
  let context (q : str) : dict :=
    {[ "query" := VStr (str_prefix 100 q); "limit" := VInt limit;
       "operation" := VStr "search_documents" ]} in
  try_except
    (errors.validate_query_parameter query 1 10000 ;;;
     errors.validate_limit_parameter (Some limit) 1 100 "limit" ;;;
     let query := strip query in
     try_except
       (doc_service <- get_document_service ;;
        DocumentService.search_documents E doc_service query limit)
       (handlers (context query)))
    (handlers (context query)).

Definition clear_knowledge_base : M dict :=
  try_except
    (doc_service <- get_document_service ;;
     DocumentService.clear_knowledge_base doc_service)
    (handlers {[ "operation" := VStr "clear_knowledge_base" ]}).

(** [initialize_server]: a failure is logged and raised again. *)
Definition initialize_server : M unit :=
  try_except
    (get_document_service ;;; ret tt)
    (fun e => Some (raise e)).

(** [cleanup_server]: the global is reset after the service is cleaned up;
    any failure is logged and swallowed. *)
Definition cleanup_server : M unit :=
  try_except
    (current <- gets _document_service ;;
     match current with
     | Some doc_service =>
         DocumentService.cleanup doc_service ;;;
         assign_document_service None
     | None => ret tt
     end)
    (fun _ => Some (ret tt)).

End server.

(** ** A tool invocation *)

Inductive tool_call :=
| AddDocument (file_path : str)
| ListDocuments (limit : option Z) (offset : Z)
| SearchDocuments (query : str) (limit : Z)
| ClearKnowledgeBase.

Definition invoke (E : Env) (c : tool_call) : M dict :=
  match c with
  | AddDocument file_path => server.add_document E file_path
  | ListDocuments limit offset => server.list_documents E limit offset
  | SearchDocuments query limit => server.search_documents E query limit
  | ClearKnowledgeBase => server.clear_knowledge_base
  end.

(** The error triple of an envelope. *)
Definition failure_envelope (d : dict) : Prop :=
  d !! "success" = Some (VBool false) /\
  (exists t, d !! "error_type" = Some (VStr t)) /\
  (exists m, d !! "error_message" = Some (VStr m)) /\
  (exists ds, d !! "error_details" = Some (VDict ds)).

Definition success_envelope (d : dict) : Prop :=
  d !! "success" = Some (VBool true).

(** [v[key]] when [v] is a dict. *)
Definition field (key : string) (v : value) : option value :=
  match v with
  | VDict d => d !! key
  | _ => None
  end.

(** No collaborator call is going to raise. *)
Definition calm (w : World) : Prop := Forall (fun f => f = None) (faults w).

(** ** List slicing *)

(** The bound [i] of a slice of a sequence of length [len]: a negative bound
    counts from the end, and bounds are clipped to [0..len]. *)
Definition slice_bound (len i : Z) : Z :=
  if i <? 0 then Z.max (i + len) 0 else Z.min i len.

(** [l[lo:hi]] *)
Definition py_slice {A} (l : list A) (lo hi : Z) : list A :=
  let len := Z.of_nat (length l) in
  let lo' := slice_bound len lo in
  let hi' := slice_bound len hi in
  take (Z.to_nat (hi' - lo')) (drop (Z.to_nat lo') l).

(** ** The sliding-window chunker *)

Module chunker.

(** Modelled from the spec: the plain-text chunker of
    [processors.content_extractor], which is absent. "Split into a sliding
    window of target length [chunk_size] with [chunk_overlap] characters
    repeated at the start of each subsequent window; the final chunk may be
    shorter than [chunk_size]." A window that reaches the end of the text is
    the last one; the next window starts [chunk_size - chunk_overlap]
    characters further. The step is positive under the configuration
    invariant [chunk_overlap < chunk_size]; without it the first window is
    the only one. *)
Equations? sliding_window (chunk_size chunk_overlap : nat) (text : string) (start : nat) : list string
  by wf (String.length text - start)%nat lt :=
  sliding_window chunk_size chunk_overlap text start
    with decide (start + chunk_size < String.length text)%nat => {
    | right _ := [String.substring start chunk_size text];
    | left _ with (chunk_size - chunk_overlap)%nat => {
        | 0%nat := [String.substring start chunk_size text];
        | S step := String.substring start chunk_size text
                    :: sliding_window chunk_size chunk_overlap text (start + S step) } }.
Proof. lia. Qed.

(** Modelled from the spec: an empty text has no chunk. *)
Definition chunk_text (chunk_size chunk_overlap : nat) (text : string) : list string :=
  match text with
  | EmptyString => []
  | String _ _ => sliding_window chunk_size chunk_overlap text 0
  end.

(** [chunk[-o:]] for [0 < o], and [chunk[:o]]. *)
Definition last_chars (o : nat) (chunk : string) : string :=
  String.substring (String.length chunk - o) o chunk.

Definition first_chars (o : nat) (chunk : string) : string :=
  String.substring 0 o chunk.

End chunker.

(** ** Concurrent first calls of [get_document_service] *)

Module lazy_init.

(** Coroutines of one event loop interleave at [await]s only. A call of
    [get_document_service] that finds the global unset runs, without
    interruption, [Config.from_env()], the constructor, the assignment of
    the global and the entry into [initialize()] up to its first [await];
    [initialize] awaits [initialize_database()], then [load_model()], then
    sets [_initialized]. A [DocumentService] object is named by its address
    in [heap], which holds its [_initialized] flag. *)
Inductive task :=
| Entering
| AwaitInitializeDatabase (self : nat)
| AwaitLoadModel (self : nat)
| Returned (instance : option nat)
| Failed.

Record state := {
  heap : list bool;
  global : option nat;
  initialize_calls : nat;
  tasks : list task
}.

(** The scheduler resumes task [t]; [ok] tells whether what the task was
    waiting for (or, on entry, the construction) succeeds. *)
Record event := { resumed : nat; ok : bool }.

Definition set_task (t : nat) (k : task) (st : state) : state :=
  {| heap := heap st; global := global st;
     initialize_calls := initialize_calls st;
     tasks := <[t := k]> (tasks st) |}.

Definition resume (ev : event) (st : state) : state :=
  let t := resumed ev in
  match tasks st !! t with
  | Some Entering =>
      match global st with
      | Some _ => set_task t (Returned (global st)) st
      | None =>
          if ok ev
          then {| heap := heap st ++ [false];
                  global := Some (length (heap st));
                  initialize_calls := S (initialize_calls st);
                  tasks := <[t := AwaitInitializeDatabase (length (heap st))]> (tasks st) |}
          else set_task t Failed st
      end
  | Some (AwaitInitializeDatabase self) =>
      set_task t (if ok ev then AwaitLoadModel self else Failed) st
  | Some (AwaitLoadModel self) =>
      if ok ev
      then {| heap := <[self := true]> (heap st);
              global := global st;
              initialize_calls := initialize_calls st;
              tasks := <[t := Returned (global st)]> (tasks st) |}
      else set_task t Failed st
  | Some (Returned _) | Some Failed | None => st
  end.

Definition run (schedule : list event) (st : state) : state :=
  foldl (fun st ev => resume ev st) st schedule.

(** [callers] concurrent first calls: the global is unset. *)
Definition initial (callers : nat) : state :=
  {| heap := []; global := None; initialize_calls := 0;
     tasks := replicate callers Entering |}.

(** Two concurrent first calls both run [initialize()]. *)
Definition double_initialization : Prop :=
  exists schedule, (2 <= initialize_calls (run schedule (initial 2)))%nat.

End lazy_init.

(** ** Specifications of computations *)

(** [ensures m Q F]: [m] never lowers the count of fired faults; when it
    returns [a] then [Q a], and [F a] if a fault fired on the way. *)
Definition ensures {A} (m : M A) (Q F : A -> Prop) : Prop :=
  forall w,
    match m w with
    | (Ret a, w') =>
        (raised w <= raised w')%nat /\ Q a /\ ((raised w < raised w')%nat -> F a)
    | (Raise _, w') => (raised w <= raised w')%nat
    end.

(** A computation that hides no fault: one that fires makes it raise. *)
Definition honest {A} (m : M A) : Prop := ensures m (fun _ => True) (fun _ => False).

(** A well-formed response: a success, or a failure with its triple; a
    failure whenever a fault fired. *)
Definition responds (m : M dict) : Prop :=
  ensures m (fun d => success_envelope d \/ failure_envelope d) failure_envelope.

(** ** Auxiliary definitions for the properties *)

(** The world after a collaborator call that went well. *)
Definition tick (w : World) : World :=
  {| documents := documents w; chunks := chunks w;
     _document_service := _document_service w;
     faults := tail (faults w); raised := raised w |}.

(** The metadata record of a document, when the store has one. *)
Definition lookup_metadata (docs : list DocumentMetadata) (document_id : str) : option DocumentMetadata :=
  find (fun d => str_eqb (id d) document_id) docs.

(** A match joined with the metadata of its document. *)
Definition joined := (VectorSearchResult * DocumentMetadata)%type.

Definition result_of (p : joined) : SearchResult :=
  DocumentService.make_search_result p.1 p.2.

(** The matches whose document has a metadata record, in order. *)
Definition resolvable (docs : list DocumentMetadata) (matches : list VectorSearchResult) : list joined :=
  omap (fun vr => pair vr <$> lookup_metadata docs (vr_document_id vr)) matches.

(** What a document looks like in a response: each key of the dict [v]
    holds the field of the record [doc], the ingestion time in ISO form. *)
Definition describes (E : Env) (doc : DocumentMetadata) (v : value) : Prop :=
  field "id" v = Some (VStr (id doc)) /\
  field "file_path" v = Some (VStr (file_path doc)) /\
  field "file_name" v = Some (VStr (file_name doc)) /\
  field "file_size" v = Some (VInt (file_size doc)) /\
  field "file_type" v = Some (VStr (file_type doc)) /\
  field "ingestion_timestamp" v =
    Some (match ingestion_timestamp doc with
          | Some t => VStr (isoformat E t)
          | None => VNone
          end) /\
  field "content_hash" v = Some (VStr (content_hash doc)) /\
  field "chunk_count" v = Some (VInt (chunk_count doc)).

(** ** A small knowledge base *)

Module demo.

Definition notes : DocumentMetadata :=
  {| id := "doc-1"; file_path := "/kb/notes.txt"; file_name := "notes.txt";
     file_size := 5; file_type := "text"; content_hash := "2cf24d";
     ingestion_timestamp := Some 0; chunk_count := 2 |}.

Definition guide : DocumentMetadata :=
  {| id := "doc-2"; file_path := "/kb/guide.txt"; file_name := "guide.txt";
     file_size := 9; file_type := "text"; content_hash := "9b71d2";
     ingestion_timestamp := Some 1; chunk_count := 0 |}.

Definition chunk (doc : str) (i : Z) (text : str) (position : Q) : DocumentChunk :=
  {| chunk_id := doc +:+ "-" +:+ pretty i; document_id := doc; chunk_index := i;
     content := text; embedding := Some [Finite position] |}.

(** A one-dimensional index: the distance of a chunk is the gap between its
    coordinate and the query's; chunks come back in table order, at most
    [limit] of them. *)
Definition line_index (stored : list DocumentChunk) (query_vector : embedding_vector) (limit : Z) : list VectorSearchResult :=
  take (Z.to_nat limit)
    (map (fun c =>
            {| vr_document_id := document_id c;
               vr_content := content c;
               score := match embedding c, query_vector with
                        | Some (x :: _), q :: _ => fabs (fsub x q)
                        | _, _ => Finite 0
                        end |})
         stored).

Definition env : Env :=
  {| read_and_chunk := fun path => (notes, [chunk "doc-1" 0 "hello" 0]);
     embed_batch := map (fun _ => [Finite 0]);
     embed := fun _ => [Finite 0];
     nearest := line_index;
     utcnow := 0;
     isoformat := pretty |}.

Definition ready : DocumentService_obj := {| _initialized := true |}.

(** Two documents; one chunk at distance 3/2 of any query, one at distance
    2^-20, and one whose document has no metadata record. *)
Definition world : World :=
  {| documents := [notes; guide];
     chunks := [chunk "doc-1" 0 "hello" (3 # 2);
                chunk "doc-1" 1 "world" (1 # 1048576);
                chunk "doc-0" 0 "orphan" (1 # 4)];
     _document_service := None;
     faults := [];
     raised := 0 |}.

Definition response (r : outcome dict * World) : dict :=
  match r with
  | (Ret d, _) => d
  | (Raise _, _) => ∅
  end.

Definition results (d : dict) : list value :=
  match d !! "results" with
  | Some (VList rs) => rs
  | _ => []
  end.

Definition search : outcome dict * World :=
  DocumentService.search_documents env ready "hello" 5 world.

(** A query of whitespace only: a no-break space, a space, an em space, a
    line separator and an ideographic space. *)
Definition blank : str := [160; 32; 8195; 8232; 12288]%N.

(** The query ["hello"] between a no-break space and a tab, and a next-line
    character and an ideographic space. *)
Definition padded : str := ([160; 9]%N ++ lit "hello" ++ [133; 12288]%N)%list.

(** A text of 250 characters, each of them U+00E9. *)
Definition essay : str := replicate 250 233%N.

(** One document with a long chunk and a short one. *)
Definition library : World :=
  {| documents := [notes];
     chunks := [chunk "doc-1" 0 essay 0; chunk "doc-1" 1 "hello" (1 # 4)];
     _document_service := None;
     faults := [];
     raised := 0 |}.

Definition browse : outcome dict * World :=
  DocumentService.search_documents env ready "hello" 5 library.

End demo.

(** The world after [n] collaborator calls that went well. *)
Fixpoint ticks (n : nat) (w : World) : World :=
  match n with
  | O => w
  | S n' => ticks n' (tick w)
  end.

(** The arguments of the tool [list_documents] that the claim says are
    rejected: a limit other than 0 outside 1..1000, or an offset outside
    0..100000. *)
Definition out_of_range (limit : option Z) (offset : Z) : Prop :=
  (exists l, limit = Some l /\ l <> 0 /\ (l < 1 \/ 1000 < l)) \/
  offset < 0 \/ 100000 < offset.


(** The claim as stated: the result of a match at distance [d] reports
    exactly [1 - d]. *)
Definition relevance_is_exact_similarity : Prop :=
  forall E self query limit w d w' rs i p r,
    DocumentService.search_documents E self query limit w = (Ret d, w') ->
    d !! "results" = Some (VList rs) ->
    resolvable (documents w) (nearest E (chunks w) (embed E (strip query)) limit) !! i = Some p ->
    rs !! i = Some r ->
    exists q dq, score p.1 = Finite dq /\
                 field "relevance_score" r = Some (VFloat (Finite q)) /\ (q == 1 - dq)%Q.

(** What holds in every state reached from [lazy_init.initial]: as long as
    the global is unset nothing was constructed and no caller got past the
    entry; once it is set it names the one object, and every caller that
    got past the entry holds that object. *)
Definition single_instance (st : lazy_init.state) : Prop :=
  match lazy_init.global st with
  | None =>
      lazy_init.heap st = [] /\ lazy_init.initialize_calls st = 0%nat /\
      Forall (fun k => k = lazy_init.Entering \/ k = lazy_init.Failed) (lazy_init.tasks st)
  | Some r =>
      r = 0%nat /\ length (lazy_init.heap st) = 1%nat /\
      lazy_init.initialize_calls st = 1%nat /\
      Forall (fun k =>
                match k with
                | lazy_init.AwaitInitializeDatabase self => self = 0%nat
                | lazy_init.AwaitLoadModel self => self = 0%nat
                | lazy_init.Returned instance => instance = Some 0%nat
                | lazy_init.Entering | lazy_init.Failed => True
                end)
             (lazy_init.tasks st)
  end.

(** ** Further definitions: the guard, frames and sample inputs *)

(** The exception of the guard [_ensure_initialized]. *)
Definition not_initialized : exn :=
  RuntimeError "Document service not initialized. Call initialize() first.".

(** [m] leaves the two tables as they are, however it ends. *)
Definition read_only {A} (m : M A) : Prop :=
  forall w, documents (m w).2 = documents w /\ chunks (m w).2 = chunks w.

Module sample.

Definition config : config.Config :=
  {| config.embedding := {| config.model := "sentence-transformers/all-MiniLM-L6-v2" |};
     config.processing := {| config.chunk_size := 1000; config.chunk_overlap := 200;
                             config.supported_extensions := [lit ".py"; lit ".txt"] |} |}.

(** [demo.world] with the given pending faults and global. *)
Definition world_with (service : option DocumentService_obj) (pending : list (option exn)) : World :=
  {| documents := documents demo.world; chunks := chunks demo.world;
     _document_service := service; faults := pending; raised := 0 |}.

Definition disk_full : exn := PyException "disk full".

Definition unsupported : exn :=
  FileProcessingError "unsupported_file_type" "Unsupported file type: .bin"
    {[ "file_path" := VStr "/kb/big.bin" ]}.

(** [demo.env] with an embedding model that yields no vector. *)
Definition mute_env : Env :=
  {| read_and_chunk := read_and_chunk demo.env;
     embed_batch := fun texts => [];
     embed := fun text => [];
     nearest := nearest demo.env;
     utcnow := utcnow demo.env;
     isoformat := isoformat demo.env |}.

End sample.

(** The chunks [add_document] hands to the store for a path: those of the
    extractor, with the vectors of the embedding model assigned in order. *)
Definition ingested_chunks (E : Env) (file_path : str) : list DocumentChunk :=
  match (read_and_chunk E file_path).2 with
  | [] => []
  | c :: cs =>
      DocumentService.assign_embeddings (c :: cs) (embed_batch E (map content (c :: cs)))
  end.

(** The metadata [add_document] hands to the store for a path. *)
Definition ingested_metadata (E : Env) (file_path : str) : DocumentMetadata :=
  DocumentService.set_ingestion_timestamp (utcnow E) (read_and_chunk E file_path).1.

(** * Properties *)

(** ** Strings *)

Lemma str_eqb_spec (s t : str) : reflect (s = t) (str_eqb s t).
Proof.
  revert t. induction s as [| c s IH]; intros [| d t]; cbn [str_eqb];
    try (constructor; congruence).
  destruct (N.eqb_spec c d) as [-> | Hne]; cbn [andb]; [| constructor; congruence].
  destruct (IH t); constructor; congruence.
Qed.

Lemma str_eqb_eq (s t : str) : str_eqb s t = true <-> s = t.
Proof. destruct (str_eqb_spec s t); split; congruence. Qed.

Lemma str_eqb_refl (s : str) : str_eqb s s = true.
Proof. by apply str_eqb_eq. Qed.

(** ** The envelopes *)

Lemma failure_envelope_envelope t m ds : failure_envelope (errors.envelope t m ds).
Proof. unfold failure_envelope, errors.envelope. repeat split; eauto. Qed.

Lemma failure_envelope_to_dict e : failure_envelope (errors.to_dict e).
Proof. unfold errors.to_dict. exact (failure_envelope_envelope _ _ _). Qed.

Lemma failure_envelope_create_error_response e context :
  failure_envelope (errors.create_error_response e context).
Proof. unfold errors.create_error_response. exact (failure_envelope_envelope _ _ _). Qed.

(** ** Rules for [ensures] *)

Lemma ensures_ret {A} (a : A) (Q F : A -> Prop) : Q a -> ensures (ret a) Q F.
Proof. intros Ha w. simpl. split; [lia | split; [done | lia]]. Qed.

Lemma ensures_raise {A} (e : exn) (Q F : A -> Prop) : ensures (raise e) Q F.
Proof. intros w. simpl. lia. Qed.

Lemma ensures_gets {A} (f : World -> A) : honest (gets f).
Proof. intros w. simpl. split; [lia | split; [done | lia]]. Qed.

Lemma ensures_weaken {A} (m : M A) (Q F Q' F' : A -> Prop) :
  (forall a, Q a -> Q' a) -> (forall a, Q a -> F a -> F' a) ->
  ensures m Q F -> ensures m Q' F'.
Proof.
  intros HQ HF Hm w. specialize (Hm w).
  destruct (m w) as [[a | e] w']; [| done].
  destruct Hm as (Hle & Ha & Hf). split; [done | split; auto].
Qed.

Lemma ensures_bind_gen {A B} (m : M A) (k : A -> M B) (QA FA : A -> Prop) (QB FB : B -> Prop) :
  ensures m QA FA ->
  (forall a, QA a -> ensures (k a) (fun b => QB b /\ (FA a -> FB b)) FB) ->
  ensures (bind m k) QB FB.
Proof.
  intros Hm Hk w. unfold bind. specialize (Hm w).
  destruct (m w) as [[a | e] w1]; [| done].
  destruct Hm as (Hle & Ha & Hf). specialize (Hk a Ha w1).
  destruct (k a w1) as [[b | e] w2]; [| lia].
  destruct Hk as (Hle' & [Hb Hfa] & Hf').
  split; [lia | split; [done |]]. intros Hlt.
  destruct (decide (raised w < raised w1)%nat); [auto |].
  apply Hf'. lia.
Qed.

Lemma ensures_bind {A B} (m : M A) (k : A -> M B) (QA : A -> Prop) (QB FB : B -> Prop) :
  ensures m QA (fun _ => False) ->
  (forall a, QA a -> ensures (k a) QB FB) ->
  ensures (bind m k) QB FB.
Proof.
  intros Hm Hk. apply (ensures_bind_gen m k QA (fun _ => False)); [done |].
  intros a Ha. eapply ensures_weaken; [| | apply (Hk a Ha)]; simpl; tauto.
Qed.

Lemma ensures_try {A} (m : M A) (h : exn -> option (M A)) (Q F : A -> Prop) :
  ensures m Q F ->
  (forall e handler, h e = Some handler ->
     ensures handler (fun a => Q a /\ F a) (fun _ => True)) ->
  ensures (try_except m h) Q F.
Proof.
  intros Hm Hh w. unfold try_except. specialize (Hm w).
  destruct (m w) as [[a | e] w1]; [done |].
  destruct (h e) as [handler |] eqn:He; [| done].
  specialize (Hh e handler He w1).
  destruct (handler w1) as [[a | e'] w2]; [| lia].
  destruct Hh as (Hle & [Ha Hf] & _). split; [lia | done].
Qed.

Lemma ensures_modify (f : World -> World) :
  (forall w, raised (f w) = raised w) -> honest (modify f).
Proof. intros Hf w. simpl. rewrite Hf. split; [lia | split; [done | lia]]. Qed.

Lemma honest_collaborator : honest collaborator.
Proof.
  intros w. unfold collaborator.
  destruct (faults w) as [| [e |] fs]; simpl; try lia.
  all: split; [lia | split; [done | lia]].
Qed.

Lemma honest_bind {A B} (m : M A) (k : A -> M B) :
  honest m -> (forall a, honest (k a)) -> honest (bind m k).
Proof. intros Hm Hk. eapply ensures_bind; [apply Hm |]. intros a _. apply Hk. Qed.

Lemma honest_ret {A} (a : A) : honest (ret a).
Proof. by apply ensures_ret. Qed.

Lemma honest_raise {A} (e : exn) : honest (raise (A := A) e).
Proof. apply ensures_raise. Qed.

Lemma honest_reraise {A} (m : M A) (f : exn -> exn) :
  honest m -> honest (try_except m (fun e => Some (raise (f e)))).
Proof.
  intros Hm. apply ensures_try; [done |].
  intros e handler [= <-]. apply ensures_raise.
Qed.

(** ** The collaborators hide no fault *)

#[local] Ltac honesty :=
  repeat first
    [ apply honest_bind; [| intros ?]
    | apply honest_collaborator
    | apply honest_ret
    | apply honest_raise
    | apply ensures_gets
    | apply ensures_modify; by intros [] ].

Lemma honest_extract_and_chunk E path : honest (ContentExtractor.extract_and_chunk E path).
Proof. unfold ContentExtractor.extract_and_chunk. honesty. Qed.

Lemma honest_generate_embeddings E texts : honest (EmbeddingService.generate_embeddings E texts).
Proof. unfold EmbeddingService.generate_embeddings. honesty. Qed.

Lemma honest_generate_embedding E text : honest (EmbeddingService.generate_embedding E text).
Proof. unfold EmbeddingService.generate_embedding. honesty. Qed.

Lemma honest_add_document_vectors md cs : honest (LanceDBManager.add_document_vectors md cs).
Proof. unfold LanceDBManager.add_document_vectors. honesty. Qed.

Lemma honest_list_all_documents limit offset : honest (LanceDBManager.list_all_documents limit offset).
Proof. unfold LanceDBManager.list_all_documents. honesty. Qed.

Lemma honest_get_document_count : honest LanceDBManager.get_document_count.
Proof. unfold LanceDBManager.get_document_count. honesty. Qed.

Lemma honest_get_document_metadata doc_id : honest (LanceDBManager.get_document_metadata doc_id).
Proof. unfold LanceDBManager.get_document_metadata. honesty. Qed.

Lemma honest_search_vectors E qv limit : honest (LanceDBManager.search_vectors E qv limit).
Proof. unfold LanceDBManager.search_vectors. honesty. Qed.

Lemma honest_clear_all_documents : honest LanceDBManager.clear_all_documents.
Proof. unfold LanceDBManager.clear_all_documents. honesty. Qed.

Lemma honest_initialize self : honest (DocumentService.initialize self).
Proof.
  unfold DocumentService.initialize. apply honest_reraise.
  unfold LanceDBManager.initialize_database, EmbeddingService.load_model. honesty.
Qed.

Lemma honest_ensure_initialized self : honest (DocumentService._ensure_initialized self).
Proof. unfold DocumentService._ensure_initialized. destruct (_initialized self); honesty. Qed.

Lemma honest_join_metadata vector_results search_results :
  honest (DocumentService.join_metadata vector_results search_results).
Proof.
  revert search_results.
  induction vector_results as [| vector_result rest IH]; intros search_results; simpl.
  - apply honest_ret.
  - apply honest_bind; [apply honest_get_document_metadata |].
    intros doc_metadata. apply IH.
Qed.

Lemma honest_get_document_service : honest server.get_document_service.
Proof.
  unfold server.get_document_service.
  apply honest_bind; [apply ensures_gets |]. intros [doc_service |]; [apply honest_ret |].
  unfold server.Config_from_env, server.DocumentService_new, server.assign_document_service.
  apply honest_bind; [apply honest_collaborator |]. intros _.
  apply honest_bind; [honesty |]. intros fresh.
  apply honest_bind; [honesty |]. intros _.
  apply honest_bind; [apply honest_initialize |]. intros ready. honesty.
Qed.

Lemma honest_validate_file_path p : honest (errors.validate_file_path p).
Proof. unfold errors.validate_file_path. case_match; honesty. Qed.

Lemma honest_validate_query_parameter q lo hi : honest (errors.validate_query_parameter q lo hi).
Proof. unfold errors.validate_query_parameter. case_match; honesty. Qed.

Lemma honest_validate_limit_parameter limit lo hi name :
  honest (errors.validate_limit_parameter limit lo hi name).
Proof. unfold errors.validate_limit_parameter. repeat case_match; honesty. Qed.

Lemma honest_validate_offset_parameter offset hi : honest (errors.validate_offset_parameter offset hi).
Proof. unfold errors.validate_offset_parameter. case_match; honesty. Qed.

(** ** The orchestrator answers with an envelope *)

#[local] Ltac envelope :=
  lazymatch goal with
  | |- failure_envelope _ => unfold failure_envelope; repeat split; eauto
  | |- success_envelope _ \/ failure_envelope _ =>
      first [ left; reflexivity | right; unfold failure_envelope; repeat split; eauto ]
  | |- _ /\ _ => split; envelope
  end.

Lemma responds_try (m : M dict) (h : exn -> option (M dict)) :
  responds m ->
  (forall e, exists d, h e = Some (ret d) /\ failure_envelope d) ->
  responds (try_except m h).
Proof.
  intros Hm Hh. apply ensures_try; [done |].
  intros e handler He. destruct (Hh e) as (d & Hd & Hfail).
  rewrite Hd in He. injection He as <-. apply ensures_ret. auto.
Qed.

Lemma responds_of_honest {A} (m : M A) (k : A -> M dict) :
  honest m -> (forall a, responds (k a)) -> responds (bind m k).
Proof. intros Hm Hk. eapply ensures_bind; [apply Hm |]. intros a _. apply Hk. Qed.

Lemma responds_ret_success (d : dict) : success_envelope d -> responds (ret d).
Proof. intros Hd. apply ensures_ret. by left. Qed.

Lemma responds_ret_failure (d : dict) : failure_envelope d -> responds (ret d).
Proof. intros Hd. apply ensures_ret. by right. Qed.

Lemma responds_add_document E self file_path :
  responds (DocumentService.add_document E self file_path).
Proof.
  unfold DocumentService.add_document.
  apply responds_of_honest; [apply honest_ensure_initialized |]. intros _.
  apply responds_try; [| intros e; eexists; split; [reflexivity | envelope]].
  eapply (ensures_bind_gen _ _
            (fun x => match x with inl d => failure_envelope d | inr _ => True end)
            (fun x => match x with inl _ => True | inr _ => False end)).
  - apply ensures_try.
    + apply (ensures_weaken _
               (fun x => match x with inl _ => False | inr _ => True end)
               (fun _ => False)).
      * by intros [d | mc] Hx.
      * by intros [d | mc] _ Hx.
      * eapply ensures_bind; [apply honest_extract_and_chunk |].
        intros mc _. by apply ensures_ret.
    + intros e handler He. destruct e; try discriminate.
      injection He as <-. apply ensures_ret. split; [envelope | done].
  - intros [response | [metadata0 chunks0]] Hx.
    + apply ensures_ret. split; [by right | done].
    + eapply ensures_weaken; [intros d Hd; split; [apply Hd | tauto] | by intros d Hd Hf |].
      eapply ensures_bind with (QA := fun _ => True).
      * destruct chunks0 as [| c cs]; [apply honest_ret |].
        apply honest_bind; [apply honest_generate_embeddings | intros es; apply honest_ret].
      * intros chunks1 _.
        apply responds_of_honest; [apply honest_add_document_vectors |]. intros _.
        apply responds_ret_success. reflexivity.
Qed.

Lemma responds_list_documents E self limit offset :
  responds (DocumentService.list_documents E self limit offset).
Proof.
  unfold DocumentService.list_documents.
  apply responds_of_honest; [apply honest_ensure_initialized |]. intros _.
  apply responds_try; [| intros e; eexists; split; [reflexivity | envelope]].
  apply responds_of_honest; [apply honest_list_all_documents |]. intros docs.
  apply responds_of_honest; [apply honest_get_document_count |]. intros total_count.
  apply responds_ret_success. reflexivity.
Qed.

Lemma responds_search_documents E self query limit :
  responds (DocumentService.search_documents E self query limit).
Proof.
  unfold DocumentService.search_documents.
  apply responds_of_honest; [apply honest_ensure_initialized |]. intros _.
  apply responds_try; [| intros e; eexists; split; [reflexivity | envelope]].
  destruct (str_eqb (strip query) ""); [apply responds_ret_failure; envelope |].
  apply responds_of_honest; [apply honest_generate_embedding |]. intros query_embedding.
  destruct query_embedding as [| x xs]; [apply responds_ret_failure; envelope |].
  apply responds_of_honest; [apply honest_search_vectors |]. intros vector_results.
  apply responds_of_honest; [apply honest_join_metadata |]. intros search_results.
  apply responds_ret_success. reflexivity.
Qed.

Lemma responds_clear_knowledge_base self :
  responds (DocumentService.clear_knowledge_base self).
Proof.
  unfold DocumentService.clear_knowledge_base.
  apply responds_of_honest; [apply honest_ensure_initialized |]. intros _.
  apply responds_try; [| intros e; eexists; split; [reflexivity | envelope]].
  apply responds_of_honest; [apply honest_clear_all_documents |]. intros documents_removed.
  apply responds_ret_success. reflexivity.
Qed.

(** ** The tools answer with an envelope *)

Lemma handlers_failure context e :
  exists d, server.handlers context e = Some (ret d) /\ failure_envelope d.
Proof.
  unfold server.handlers. eexists. split; [reflexivity |].
  destruct e; auto using failure_envelope_to_dict, failure_envelope_create_error_response.
Qed.

Lemma responds_tool (m : M dict) context :
  responds m -> responds (try_except m (server.handlers context)).
Proof. intros Hm. apply responds_try; [done | apply handlers_failure]. Qed.

(** A tool never raises: its last [except] clause takes every exception. *)
Lemma tool_returns (m : M dict) context w :
  exists d w', try_except m (server.handlers context) w = (Ret d, w').
Proof.
  unfold try_except. destruct (m w) as [[d | e] w1]; [by eauto |].
  destruct (handlers_failure context e) as (d & -> & _). simpl. eauto.
Qed.

Lemma responds_invoke E c : responds (invoke E c).
Proof.
  destruct c as [file_path | limit offset | query limit |]; simpl.
  - unfold server.add_document. apply responds_tool.
    apply responds_of_honest; [apply honest_validate_file_path |]. intros _.
    apply responds_tool.
    apply responds_of_honest; [apply honest_get_document_service |]. intros doc_service.
    apply responds_add_document.
  - unfold server.list_documents. apply responds_tool.
    apply responds_of_honest; [apply honest_validate_limit_parameter |]. intros _.
    apply responds_of_honest; [apply honest_validate_offset_parameter |]. intros _.
    apply responds_of_honest; [apply honest_get_document_service |]. intros doc_service.
    apply responds_list_documents.
  - unfold server.search_documents. apply responds_tool.
    apply responds_of_honest; [apply honest_validate_query_parameter |]. intros _.
    apply responds_of_honest; [apply honest_validate_limit_parameter |]. intros _.
    apply responds_tool.
    apply responds_of_honest; [apply honest_get_document_service |]. intros doc_service.
    apply responds_search_documents.
  - unfold server.clear_knowledge_base. apply responds_tool.
    apply responds_of_honest; [apply honest_get_document_service |]. intros doc_service.
    apply responds_clear_knowledge_base.
Qed.

Lemma invoke_returns E c w : exists d w', invoke E c w = (Ret d, w').
Proof. destruct c; apply tool_returns. Qed.

(** C1. Whatever the state of the service and of the store, and whichever
    calls into the collaborators fail, each of the four tools returns a
    response and raises nothing; the response is a success or carries
    [success: false] with [error_type], [error_message] and
    [error_details]; and it is such a failure whenever a collaborator
    failed during the call. *)
Theorem tool_boundary_envelope (E : Env) (c : tool_call) (w : World) :
  exists d w',
    invoke E c w = (Ret d, w') /\
    (success_envelope d \/ failure_envelope d) /\
    ((raised w < raised w')%nat -> failure_envelope d).
Proof.
  destruct (invoke_returns E c w) as (d & w' & Hrun).
  exists d, w'. split; [done |].
  pose proof (responds_invoke E c w) as H. rewrite Hrun in H.
  destruct H as (_ & Hd & Hf). auto.
Qed.

(** ** Runs in which no collaborator fails *)

Lemma calm_tick w : calm w -> calm (tick w).
Proof. unfold calm. simpl. destruct (faults w); [done |]. by inversion 1. Qed.

Lemma calm_set_tables ds cs w : calm w -> calm (set_tables ds cs w).
Proof. done. Qed.

Lemma run_collaborator w : calm w -> collaborator w = (Ret tt, tick w).
Proof.
  unfold calm, collaborator, tick. destruct w as [ds cs svc fs n]; simpl.
  destruct fs as [| [e |] fs]; [done | | done].
  intros H. inversion H; discriminate.
Qed.

Lemma run_list_all_documents limit offset w :
  calm w ->
  LanceDBManager.list_all_documents limit offset w =
    (Ret (let rest := drop (Z.to_nat offset) (documents w) in
          match limit with Some l => take (Z.to_nat l) rest | None => rest end),
     tick w).
Proof.
  intros Hw. unfold LanceDBManager.list_all_documents, bind.
  by rewrite run_collaborator.
Qed.

Lemma run_get_document_count w :
  calm w ->
  LanceDBManager.get_document_count w = (Ret (Z.of_nat (length (documents w))), tick w).
Proof.
  intros Hw. unfold LanceDBManager.get_document_count, bind.
  by rewrite run_collaborator.
Qed.

Lemma run_get_document_metadata document_id w :
  calm w ->
  LanceDBManager.get_document_metadata document_id w =
    (Ret (find (fun d => str_eqb (id d) document_id) (documents w)), tick w).
Proof.
  intros Hw. unfold LanceDBManager.get_document_metadata, bind.
  by rewrite run_collaborator.
Qed.

Lemma run_search_vectors E query_vector limit w :
  calm w ->
  LanceDBManager.search_vectors E query_vector limit w =
    (Ret (nearest E (chunks w) query_vector limit), tick w).
Proof.
  intros Hw. unfold LanceDBManager.search_vectors, bind.
  by rewrite run_collaborator.
Qed.

Lemma run_clear_all_documents w :
  calm w ->
  LanceDBManager.clear_all_documents w =
    (Ret (Z.of_nat (length (documents w))), set_tables [] [] (tick w)).
Proof.
  intros Hw. unfold LanceDBManager.clear_all_documents, bind.
  by rewrite run_collaborator.
Qed.

Lemma run_generate_embedding E text w :
  calm w ->
  EmbeddingService.generate_embedding E text w = (Ret (embed E text), tick w).
Proof.
  intros Hw. unfold EmbeddingService.generate_embedding, bind.
  by rewrite run_collaborator.
Qed.

Lemma run_ensure_initialized self w :
  _initialized self = true ->
  DocumentService._ensure_initialized self w = (Ret tt, w).
Proof. intros H. unfold DocumentService._ensure_initialized. by rewrite H. Qed.

(** ** Listing *)

Lemma py_slice_page {A} (l : list A) (O L : Z) :
  0 <= O -> 0 <= L ->
  py_slice l O (O + L) = take (Z.to_nat L) (drop (Z.to_nat O) l).
Proof.
  intros HO HL. unfold py_slice, slice_bound.
  rewrite (proj2 (Z.ltb_ge O 0)), (proj2 (Z.ltb_ge (O + L) 0)) by lia.
  destruct (decide (Z.of_nat (length l) <= O)) as [Hout | Hin].
  - rewrite !drop_ge by lia. by rewrite !take_nil.
  - replace (Z.to_nat (Z.min O (Z.of_nat (length l)))) with (Z.to_nat O) by lia.
    destruct (decide (O + L <= Z.of_nat (length l))).
    + f_equal. lia.
    + rewrite !take_ge; [done | |]; rewrite length_drop; lia.
Qed.

Lemma describes_document_to_dict E docs :
  Forall2 (describes E) docs (map (DocumentService.document_to_dict E) docs).
Proof.
  apply Forall2_fmap_r, Forall_Forall2_diag, Forall_forall. intros doc _.
  destruct doc as [i p n sz t h [ts |] c]; repeat split; reflexivity.
Qed.

(** C5. With an initialised service and a store that answers,
    [list_documents(limit=L, offset=O)] returns one dict for each document
    of the slice [documents[O:O+L]] of the documents in ingestion order, in
    that order, each with the eight fields of its document; its pagination
    record holds the total count, the number of documents returned, which
    is at most [L], the offset and the limit. *)
Theorem list_documents_returns_page (E : Env) (self : DocumentService_obj) (L O : Z) (w : World) :
  _initialized self = true -> calm w -> 0 <= L -> 0 <= O ->
  exists d w' returned returned_count,
    DocumentService.list_documents E self (Some L) O w = (Ret d, w') /\
    d !! "success" = Some (VBool true) /\
    d !! "documents" = Some (VList returned) /\
    Forall2 (describes E) (py_slice (documents w) O (O + L)) returned /\
    d !! "pagination" =
      Some (VDict {[ "total_count" := VInt (Z.of_nat (length (documents w)));
                     "returned_count" := VInt returned_count;
                     "offset" := VInt O;
                     "limit" := VInt L ]}) /\
    returned_count = Z.of_nat (length (py_slice (documents w) O (O + L))) /\
    returned_count <= L.
Proof.
  intros Hinit Hw HL HO.
  unfold DocumentService.list_documents, bind, try_except.
  rewrite run_ensure_initialized, run_list_all_documents by done.
  rewrite run_get_document_count by by apply calm_tick.
  rewrite py_slice_page by done. simpl.
  eexists _, _, _, _. split; [reflexivity |].
  split; [reflexivity |]. split; [reflexivity |].
  split; [apply describes_document_to_dict |].
  split; [reflexivity |]. split.
  - by rewrite length_map.
  - rewrite length_map, length_take. lia.
Qed.

(** ** Searching *)

Lemma collaborator_tables w r w' :
  collaborator w = (r, w') -> documents w' = documents w /\ chunks w' = chunks w.
Proof.
  unfold collaborator. destruct (faults w) as [| [e |] fs]; intros [= <- <-]; done.
Qed.

Lemma get_document_metadata_inv document_id w o w' :
  LanceDBManager.get_document_metadata document_id w = (Ret o, w') ->
  o = lookup_metadata (documents w) document_id /\ documents w' = documents w.
Proof.
  unfold LanceDBManager.get_document_metadata, bind.
  destruct (collaborator w) as [[[] | e] w1] eqn:Hc; [| discriminate].
  apply collaborator_tables in Hc as [Hd _]. simpl.
  intros [= <- <-]. by rewrite Hd.
Qed.

Lemma resolvable_cons docs vr rest :
  resolvable docs (vr :: rest) =
    match lookup_metadata docs (vr_document_id vr) with
    | Some md => (vr, md) :: resolvable docs rest
    | None => resolvable docs rest
    end.
Proof. unfold resolvable. simpl. by destruct (lookup_metadata _ _). Qed.

Lemma join_metadata_inv vector_results search_results w out w' :
  DocumentService.join_metadata vector_results search_results w = (Ret out, w') ->
  out = (search_results ++ map result_of (resolvable (documents w) vector_results))%list /\
  documents w' = documents w.
Proof.
  revert search_results w.
  induction vector_results as [| vr rest IH]; intros search_results w;
    cbn [DocumentService.join_metadata].
  - intros [= <- <-]. by rewrite app_nil_r.
  - unfold bind at 1.
    destruct (LanceDBManager.get_document_metadata _ w) as [[o | e] w1] eqn:Hget;
      [| discriminate].
    apply get_document_metadata_inv in Hget as [-> Hdocs].
    intros Hrest. apply IH in Hrest as [-> Hdocs']. rewrite Hdocs in *.
    split; [| done]. rewrite resolvable_cons.
    destruct (lookup_metadata (documents w) (vr_document_id vr)) as [md |]; [| done].
    by rewrite <- app_assoc.
Qed.

Lemma search_vectors_inv E query_vector limit w out w' :
  LanceDBManager.search_vectors E query_vector limit w = (Ret out, w') ->
  out = nearest E (chunks w) query_vector limit /\ documents w' = documents w.
Proof.
  unfold LanceDBManager.search_vectors, bind.
  destruct (collaborator w) as [[[] | e] w1] eqn:Hc; [| discriminate].
  apply collaborator_tables in Hc as [Hd Hc]. simpl.
  intros [= <- <-]. by rewrite Hc.
Qed.

Lemma generate_embedding_inv E text w out w' :
  EmbeddingService.generate_embedding E text w = (Ret out, w') ->
  out = embed E text /\ chunks w' = chunks w /\ documents w' = documents w.
Proof.
  unfold EmbeddingService.generate_embedding, bind.
  destruct (collaborator w) as [[[] | e] w1] eqn:Hc; [| discriminate].
  apply collaborator_tables in Hc as [Hd Hc]. simpl.
  by intros [= <- <-].
Qed.

(** The results a search returns are, in order, those of the matches of the
    store whose document has a metadata record. *)
Lemma search_documents_results E self query limit w d w' rs :
  DocumentService.search_documents E self query limit w = (Ret d, w') ->
  d !! "results" = Some (VList rs) ->
  rs = map (fun p => DocumentService.result_to_dict E (result_of p))
           (resolvable (documents w)
                       (nearest E (chunks w) (embed E (strip query)) limit)).
Proof.
  unfold DocumentService.search_documents, bind at 1.
  unfold DocumentService._ensure_initialized.
  destruct (_initialized self); [| discriminate]. simpl.
  unfold try_except.
  destruct (str_eqb (strip query) "").
  { simpl. intros [= <- <-]. discriminate. }
  unfold bind at 1.
  destruct (EmbeddingService.generate_embedding E (strip query) w)
    as [[query_embedding | e] w1] eqn:Hemb; [| by intros [= <- <-]].
  apply generate_embedding_inv in Hemb as (-> & Hchunks & Hdocs).
  destruct (embed E (strip query)) as [| x xs] eqn:Hvec.
  { simpl. intros [= <- <-]. discriminate. }
  unfold bind at 1.
  destruct (LanceDBManager.search_vectors E (x :: xs) limit w1)
    as [[vector_results | e] w2] eqn:Hsearch; [| by intros [= <- <-]].
  apply search_vectors_inv in Hsearch as [-> Hdocs']. rewrite Hchunks.
  unfold bind at 1.
  destruct (DocumentService.join_metadata _ [] w2)
    as [[search_results | e] w3] eqn:Hjoin; [| by intros [= <- <-]].
  apply join_metadata_inv in Hjoin as [-> _]. rewrite Hdocs', Hdocs.
  simpl. intros [= <- <-] [= <-]. by rewrite map_map.
Qed.

Lemma field_content_excerpt E r :
  field "content_excerpt" (DocumentService.result_to_dict E r) = Some (VStr (content_excerpt r)).
Proof. reflexivity. Qed.

Lemma field_relevance_score E r :
  field "relevance_score" (DocumentService.result_to_dict E r) =
    Some (VFloat (py_round (relevance_score r) 4)).
Proof. reflexivity. Qed.

Lemma make_excerpt_spec text :
  DocumentService.make_excerpt text =
    if (length text <=? 200)%nat then text
    else (take 200 text ++ [46%N; 46%N; 46%N])%list.
Proof.
  unfold DocumentService.make_excerpt.
  destruct (Nat.ltb_spec 200 (length text)), (Nat.leb_spec (length text) 200);
    (done || lia).
Qed.

(** C4. There is a display length [L], which is 200, such that the results
    of [search_documents] are, position by position, those of the matches
    of the store whose document is known, and the [content_excerpt] of each
    is the content of its chunk when that has at most [L] characters, and
    otherwise its first [L] characters followed by three full stops. *)
Theorem excerpt_fixed_length :
  exists L : nat,
    L = 200%nat /\
    forall E self query limit w d w' rs,
      DocumentService.search_documents E self query limit w = (Ret d, w') ->
      d !! "results" = Some (VList rs) ->
      Forall2 (fun (p : joined) r =>
                 field "content_excerpt" r =
                   Some (VStr (if (length (vr_content p.1) <=? L)%nat
                               then vr_content p.1
                               else (take L (vr_content p.1) ++ [46%N; 46%N; 46%N])%list)))
              (resolvable (documents w)
                          (nearest E (chunks w) (embed E (strip query)) limit))
              rs.
Proof.
  exists 200%nat. split; [done |]. intros E self query limit w d w' rs Hrun Hrs.
  rewrite (search_documents_results _ _ _ _ _ _ _ _ Hrun Hrs).
  apply Forall2_fmap_r, Forall_Forall2_diag, Forall_forall. intros p _.
  unfold compose. rewrite field_content_excerpt.
  unfold result_of, DocumentService.make_search_result, content_excerpt.
  by rewrite make_excerpt_spec.
Qed.

Lemma excerpt_fixed_length_witness :
  exists L : nat,
    L = 200%nat /\
    Forall2 (fun (p : joined) r =>
               field "content_excerpt" r =
                 Some (VStr (if (length (vr_content p.1) <=? L)%nat
                             then vr_content p.1
                             else (take L (vr_content p.1) ++ [46%N; 46%N; 46%N])%list)))
            (resolvable (documents demo.library)
                        (demo.line_index (chunks demo.library) [Finite 0] 5))
            (demo.results (demo.response demo.browse)).
Proof.
  destruct excerpt_fixed_length as (L & HL & H). exists L. split; [exact HL |].
  apply (H demo.env demo.ready "hello" 5 demo.library
           (demo.response demo.browse) (snd demo.browse)).
  - vm_compute. reflexivity.
  - vm_compute. reflexivity.
Defined.

(** The chunk of 250 characters is cut to its first 200 characters and the
    three full stops; the short one is returned whole. *)
Example long_chunk_is_cut :
  map (field "content_excerpt") (demo.results (demo.response demo.browse)) =
    [Some (VStr (replicate 200 233%N ++ [46%N; 46%N; 46%N])%list);
     Some (VStr "hello")].
Proof. vm_compute. reflexivity. Qed.

Lemma list_documents_returns_page_witness :
  exists d w' returned returned_count,
    DocumentService.list_documents demo.env demo.ready (Some 1) 1 demo.world = (Ret d, w') /\
    d !! "success" = Some (VBool true) /\
    d !! "documents" = Some (VList returned) /\
    Forall2 (describes demo.env) (py_slice (documents demo.world) 1 (1 + 1)) returned /\
    d !! "pagination" =
      Some (VDict {[ "total_count" := VInt (Z.of_nat (length (documents demo.world)));
                     "returned_count" := VInt returned_count;
                     "offset" := VInt 1;
                     "limit" := VInt 1 ]}) /\
    returned_count = Z.of_nat (length (py_slice (documents demo.world) 1 (1 + 1))) /\
    returned_count <= 1.
Proof.
  apply (list_documents_returns_page demo.env demo.ready 1 1 demo.world).
  - reflexivity.
  - constructor.
  - lia.
  - lia.
Defined.

Lemma run_join_metadata vector_results search_results w :
  calm w ->
  DocumentService.join_metadata vector_results search_results w =
    (Ret (search_results ++ map result_of (resolvable (documents w) vector_results))%list,
     ticks (length vector_results) w).
Proof.
  revert search_results w.
  induction vector_results as [| vr rest IH]; intros search_results w Hw.
  - simpl. by rewrite app_nil_r.
  - rewrite resolvable_cons. cbn [DocumentService.join_metadata length ticks].
    unfold bind. rewrite run_get_document_metadata by done.
    rewrite IH by by apply calm_tick.
    fold (lookup_metadata (documents w) (vr_document_id vr)).
    change (documents (tick w)) with (documents w).
    destruct (lookup_metadata _ _) as [md |]; [| done].
    by rewrite <- app_assoc.
Qed.

Lemma resolvable_length docs matches :
  length (resolvable docs matches) =
    length (filter (fun vr => is_Some (lookup_metadata docs (vr_document_id vr))) matches).
Proof.
  induction matches as [| vr rest IH]; [done |].
  rewrite resolvable_cons, filter_cons.
  destruct (lookup_metadata docs (vr_document_id vr)) as [md |] eqn:Hmd.
  - rewrite decide_True by eauto. simpl. by rewrite IH.
  - rewrite decide_False; [done |]. by intros [md Hsome].
Qed.

Lemma resolvable_metadata docs matches :
  Forall (fun p => p.1 ∈ matches /\ lookup_metadata docs (vr_document_id p.1) = Some p.2)
         (resolvable docs matches).
Proof.
  apply Forall_forall. intros [vr md] Hp.
  apply list_elem_of_omap in Hp as (vr' & Hin & Hsome).
  destruct (lookup_metadata docs (vr_document_id vr')) as [md' |] eqn:Hmd; [| done].
  simpl in Hsome. injection Hsome as -> ->. done.
Qed.

(** C10. With an initialised service, collaborators that answer and a
    query that is not blank, [search_documents] succeeds and keeps exactly
    the matches of the store whose document has a metadata record, in
    order: the others are dropped without a trace, and [result_count] is
    the number kept, at most the number of matches the store returned. *)
Theorem search_drops_matches_without_metadata (E : Env) (self : DocumentService_obj) (query : str) (limit : Z) (w : World) :
  _initialized self = true -> calm w ->
  strip query <> "" -> embed E (strip query) <> [] ->
  exists d w' (kept : list joined),
    DocumentService.search_documents E self query limit w = (Ret d, w') /\
    kept = resolvable (documents w) (nearest E (chunks w) (embed E (strip query)) limit) /\
    d !! "success" = Some (VBool true) /\
    d !! "results" =
      Some (VList (map (fun p => DocumentService.result_to_dict E (result_of p)) kept)) /\
    d !! "result_count" = Some (VInt (Z.of_nat (length kept))) /\
    length kept =
      length (filter (fun vr => is_Some (lookup_metadata (documents w) (vr_document_id vr)))
                     (nearest E (chunks w) (embed E (strip query)) limit)) /\
    (length kept <= length (nearest E (chunks w) (embed E (strip query)) limit))%nat.
Proof.
  intros Hinit Hw Hquery Hvec.
  unfold DocumentService.search_documents, bind, try_except.
  rewrite run_ensure_initialized by done.
  destruct (str_eqb_spec (strip query) ""); [done |].
  rewrite run_generate_embedding by done.
  destruct (embed E (strip query)) as [| x xs] eqn:Hembed; [done |].
  rewrite run_search_vectors by by apply calm_tick.
  rewrite run_join_metadata by by do 2 apply calm_tick.
  simpl. eexists _, _, _. split; [reflexivity |]. split; [reflexivity |].
  repeat split.
  - by rewrite map_map.
  - by rewrite !length_map.
  - apply resolvable_length.
  - rewrite resolvable_length. apply length_filter.
Qed.

Lemma search_drops_matches_without_metadata_witness :
  exists d w' (kept : list joined),
    demo.search = (Ret d, w') /\
    kept = resolvable (documents demo.world) (demo.line_index (chunks demo.world) [Finite 0] 5) /\
    d !! "success" = Some (VBool true) /\
    d !! "results" =
      Some (VList (map (fun p => DocumentService.result_to_dict demo.env (result_of p)) kept)) /\
    d !! "result_count" = Some (VInt (Z.of_nat (length kept))) /\
    length kept =
      length (filter (fun vr => is_Some (lookup_metadata (documents demo.world) (vr_document_id vr)))
                     (demo.line_index (chunks demo.world) [Finite 0] 5)) /\
    (length kept <= length (demo.line_index (chunks demo.world) [Finite 0] 5))%nat.
Proof.
  apply (search_drops_matches_without_metadata demo.env demo.ready "hello" 5 demo.world).
  - reflexivity.
  - constructor.
  - vm_compute. discriminate.
  - vm_compute. discriminate.
Defined.

(** In the small knowledge base the store returns three matches and the
    search reports two: the chunk of the unknown document is gone. *)
Example search_drops_orphan :
  length (demo.line_index (chunks demo.world) [Finite 0] 5) = 3%nat /\
  demo.response demo.search !! "result_count" = Some (VInt 2) /\
  demo.response demo.search !! "success" = Some (VBool true).
Proof. vm_compute. done. Qed.

(** ** Clearing *)

Lemma run_clear_knowledge_base self w :
  _initialized self = true -> calm w ->
  exists d,
    DocumentService.clear_knowledge_base self w = (Ret d, set_tables [] [] (tick w)) /\
    d !! "success" = Some (VBool true) /\
    d !! "documents_removed" = Some (VInt (Z.of_nat (length (documents w)))).
Proof.
  intros Hinit Hw. unfold DocumentService.clear_knowledge_base, bind, try_except.
  rewrite run_ensure_initialized, run_clear_all_documents by done.
  eexists. split; [reflexivity |]. by split.
Qed.

(** C6. From a store that holds at least one document, with an initialised
    service and a store that answers, [clear_knowledge_base] reports a
    [documents_removed] that is not zero, the number of documents held; a
    second call right after reports zero; and [get_document_count()] is 0
    after the first call and after the second. *)
Theorem clear_twice (self : DocumentService_obj) (w : World) :
  _initialized self = true -> calm w -> documents w <> [] ->
  exists d1 w1 d2 w2 removed w3 w4,
    DocumentService.clear_knowledge_base self w = (Ret d1, w1) /\
    d1 !! "success" = Some (VBool true) /\
    d1 !! "documents_removed" = Some (VInt removed) /\
    removed = Z.of_nat (length (documents w)) /\
    removed <> 0 /\
    DocumentService.clear_knowledge_base self w1 = (Ret d2, w2) /\
    d2 !! "success" = Some (VBool true) /\
    d2 !! "documents_removed" = Some (VInt 0) /\
    LanceDBManager.get_document_count w1 = (Ret 0, w3) /\
    LanceDBManager.get_document_count w2 = (Ret 0, w4).
Proof.
  intros Hinit Hw Hdocs.
  assert (calm (set_tables [] [] (tick w))) as Hw1 by by apply calm_set_tables, calm_tick.
  assert (calm (set_tables [] [] (tick (set_tables [] [] (tick w))))) as Hw2
    by by apply calm_set_tables, calm_tick.
  destruct (run_clear_knowledge_base self w Hinit Hw) as (d1 & Hrun1 & Hok1 & Hn1).
  destruct (run_clear_knowledge_base self _ Hinit Hw1) as (d2 & Hrun2 & Hok2 & Hn2).
  eexists d1, _, d2, _, _, _, _.
  split; [exact Hrun1 |]. split; [done |]. split; [exact Hn1 |]. split; [done |].
  split; [destruct (documents w); [done | simpl; lia] |].
  split; [exact Hrun2 |]. split; [done |]. split; [exact Hn2 |].
  split; by rewrite run_get_document_count.
Qed.

Lemma clear_twice_witness :
  exists d1 w1 d2 w2 removed w3 w4,
    DocumentService.clear_knowledge_base demo.ready demo.world = (Ret d1, w1) /\
    d1 !! "success" = Some (VBool true) /\
    d1 !! "documents_removed" = Some (VInt removed) /\
    removed = Z.of_nat (length (documents demo.world)) /\
    removed <> 0 /\
    DocumentService.clear_knowledge_base demo.ready w1 = (Ret d2, w2) /\
    d2 !! "success" = Some (VBool true) /\
    d2 !! "documents_removed" = Some (VInt 0) /\
    LanceDBManager.get_document_count w1 = (Ret 0, w3) /\
    LanceDBManager.get_document_count w2 = (Ret 0, w4).
Proof.
  apply (clear_twice demo.ready demo.world).
  - reflexivity.
  - constructor.
  - discriminate.
Defined.

(** ** Validation at the tool boundary *)

(** C9. The tool [list_documents] treats [limit = 0] as no limit; and for
    a limit other than 0 outside 1..1000, or an offset outside 0..100000,
    it answers with the envelope of a parameter-validation error and leaves
    the world as it was: no service is created, no collaborator is called,
    the store is not read. *)
Theorem list_documents_rejects_out_of_range (E : Env) (limit : option Z) (offset : Z) (w : World) :
  out_of_range limit offset ->
  server.list_documents E (Some 0) offset w = server.list_documents E None offset w /\
  exists message details,
    server.list_documents E limit offset w =
      (Ret (errors.to_dict (ParameterValidationError message details)), w) /\
    failure_envelope (errors.to_dict (ParameterValidationError message details)) /\
    errors.to_dict (ParameterValidationError message details) !! "error_type" =
      Some (VStr "parameter_validation_error").
Proof.
  intros Hout. split; [reflexivity |].
  assert (forall message details,
            failure_envelope (errors.to_dict (ParameterValidationError message details)) /\
            errors.to_dict (ParameterValidationError message details) !! "error_type" =
              Some (VStr "parameter_validation_error")) as Henv.
  { intros message details. split; [apply failure_envelope_to_dict | reflexivity]. }
  unfold server.list_documents, try_except, bind at 1.
  destruct Hout as [(l & -> & Hl & Hrange) | Hoffset].
  - replace (match Some l with Some 0 => None | _ => Some l end) with (Some l)
      by by destruct l.
    unfold errors.validate_limit_parameter.
    replace ((l <? 1) || (1000 <? l)) with true by lia.
    simpl. eauto.
  - set (limit' := match limit with Some 0 => None | _ => limit end).
    destruct (errors.validate_limit_parameter limit' 1 1000 "limit" w)
      as [[[] | e] w1] eqn:Hlimit.
    + assert (w1 = w) as ->.
      { unfold errors.validate_limit_parameter in Hlimit.
        destruct limit' as [l |]; [| by injection Hlimit].
        destruct ((l <? 1) || (1000 <? l)); [discriminate | by injection Hlimit]. }
      unfold bind at 1. unfold errors.validate_offset_parameter.
      replace ((offset <? 0) || (100000 <? offset)) with true by lia.
      simpl. eauto.
    + unfold errors.validate_limit_parameter in Hlimit.
      destruct limit' as [l |]; [| discriminate].
      destruct ((l <? 1) || (1000 <? l)); [| discriminate].
      injection Hlimit as <- <-. simpl. eauto.
Qed.

Lemma list_documents_rejects_out_of_range_witness :
  server.list_documents demo.env (Some 0) 0 demo.world =
    server.list_documents demo.env None 0 demo.world /\
  exists message details,
    server.list_documents demo.env (Some 2000) 0 demo.world =
      (Ret (errors.to_dict (ParameterValidationError message details)), demo.world) /\
    failure_envelope (errors.to_dict (ParameterValidationError message details)) /\
    errors.to_dict (ParameterValidationError message details) !! "error_type" =
      Some (VStr "parameter_validation_error").
Proof.
  apply (list_documents_rejects_out_of_range demo.env (Some 2000) 0 demo.world).
  left. exists 2000. repeat split; lia.
Defined.

(** ** Rounding *)

Lemma round_half_even_floor x :
  Qfloor x <= round_half_even x <= Qfloor x + 1.
Proof. unfold round_half_even. destruct (_ ?= _)%Q; [destruct (Z.even _) | |]; lia. Qed.

Lemma round_half_even_mono x y : (x <= y)%Q -> round_half_even x <= round_half_even y.
Proof.
  intros Hxy. pose proof (Qfloor_resp_le _ _ Hxy) as Hf.
  destruct (Z.eq_dec (Qfloor x) (Qfloor y)) as [Heq | Hne].
  2:{ pose proof (round_half_even_floor x). pose proof (round_half_even_floor y). lia. }
  unfold round_half_even. rewrite Heq.
  destruct (Qcompare_spec (x - inject_Z (Qfloor y)) (1 # 2)),
           (Qcompare_spec (y - inject_Z (Qfloor y)) (1 # 2));
    try destruct (Z.even _); try lia; lra.
Qed.

Lemma round_half_even_Z n : round_half_even (inject_Z n) = n.
Proof.
  unfold round_half_even. rewrite Qfloor_Z.
  destruct (Qcompare_spec (inject_Z n - inject_Z n) (1 # 2)); [lra | lia | lra].
Qed.

Lemma pow2_pos k : 0 <= k -> (0 < inject_Z (2 ^ k))%Q.
Proof.
  intros Hk. change 0%Q with (inject_Z 0). rewrite <- Zlt_Qlt. apply Z.pow_pos_nonneg; lia.
Qed.


Lemma mantissa_upper s k :
  0 <= k -> Z.log2 (Qfloor s) - 52 <= k ->
  round_half_even (s / inject_Z (2 ^ k)) <= 2 ^ 53.
Proof.
  intros Hk Hlog.
  rewrite <- (round_half_even_Z (2 ^ 53)). apply round_half_even_mono.
  apply Qle_shift_div_r; [by apply pow2_pos |].
  rewrite <- inject_Z_mult, <- Z.pow_add_r by lia.
  assert (Qfloor s + 1 <= 2 ^ (53 + k)) as Hf.
  { destruct (Z.le_gt_cases (Qfloor s) 0) as [Hle | Hgt].
    - assert (1 <= 2 ^ (53 + k)) by (apply (Z.pow_le_mono_r 2 0); lia). lia.
    - pose proof (Z.log2_spec _ Hgt) as [_ Hhi].
      assert (2 ^ Z.succ (Z.log2 (Qfloor s)) <= 2 ^ (53 + k))
        by (apply Z.pow_le_mono_r; lia).
      lia. }
  pose proof (Qlt_floor s) as Hs. rewrite Zle_Qle in Hf. lra.
Qed.

Lemma mantissa_lower s k :
  0 < k -> k = Z.log2 (Qfloor s) - 52 ->
  2 ^ 52 <= round_half_even (s / inject_Z (2 ^ k)).
Proof.
  intros Hk Hlog.
  rewrite <- (round_half_even_Z (2 ^ 52)) at 1. apply round_half_even_mono.
  apply Qle_shift_div_l; [apply pow2_pos; lia |].
  rewrite <- inject_Z_mult, <- Z.pow_add_r by lia.
  assert (0 < Qfloor s) as Hgt.
  { destruct (Z.le_gt_cases (Qfloor s) 0) as [Hle | Hgt]; [| done].
    rewrite (Z.log2_nonpos _ Hle) in Hlog. lia. }
  pose proof (Z.log2_spec _ Hgt) as [Hlo _].
  replace (52 + k) with (Z.log2 (Qfloor s)) by lia.
  pose proof (Qfloor_le s) as Hs. rewrite Zle_Qle in Hlo. lra.
Qed.

Lemma ulps_mono x y : (0 <= x)%Q -> (x <= y)%Q -> ulps x <= ulps y.
Proof.
  intros Hx Hxy. unfold ulps.
  set (sx := (x * inject_Z (2 ^ 1074))%Q). set (sy := (y * inject_Z (2 ^ 1074))%Q).
  assert (sx <= sy)%Q as Hs.
  { pose proof (pow2_pos 1074 ltac:(lia)). unfold sx, sy. nra. }
  pose proof (Qfloor_resp_le _ _ Hs) as Hf.
  pose proof (Z.log2_le_mono _ _ Hf) as Hlog.
  set (kx := Z.max (Z.log2 (Qfloor sx) - 52) 0).
  set (ky := Z.max (Z.log2 (Qfloor sy) - 52) 0).
  assert (0 <= kx) by lia. assert (0 <= ky) by lia.
  destruct (Z.eq_dec kx ky) as [Heq | Hne].
  - rewrite Heq. apply Z.mul_le_mono_nonneg_r; [apply Z.pow_nonneg; lia |].
    apply round_half_even_mono.
    pose proof (pow2_pos ky ltac:(lia)) as Hp.
    apply Qle_shift_div_l; [done |].
    unfold Qdiv. rewrite <- Qmult_assoc, (Qmult_comm (/ _)), Qmult_inv_r by lra. lra.
  - assert (kx + 1 <= ky) by lia.
    pose proof (mantissa_upper sx kx ltac:(lia) ltac:(lia)) as Hup.
    pose proof (mantissa_lower sy ky ltac:(lia) ltac:(lia)) as Hlo.
    apply Z.le_trans with (2 ^ 53 * 2 ^ kx).
    { apply Z.mul_le_mono_nonneg_r; [apply Z.pow_nonneg; lia | done]. }
    apply Z.le_trans with (2 ^ 52 * 2 ^ ky).
    2:{ apply Z.mul_le_mono_nonneg_r; [apply Z.pow_nonneg; lia | done]. }
    rewrite <- !Z.pow_add_r by lia. apply Z.pow_le_mono_r; lia.
Qed.

Lemma ulps_0 : ulps 0 = 0.
Proof. vm_compute. reflexivity. Qed.

Lemma ulps_1 : ulps 1 = 2 ^ 1074.
Proof. vm_compute. reflexivity. Qed.

Lemma ulps_nonneg x : (0 <= x)%Q -> 0 <= ulps x.
Proof. intros. rewrite <- ulps_0. apply ulps_mono; lra. Qed.

Lemma fle_trans x y z : fle x y -> fle y z -> fle x z.
Proof.
  destruct x as [p | | [] |], y as [q | | [] |], z as [r | | [] |]; simpl; try done; lra.
Qed.

Lemma of_ulps_pos n : 0 <= n -> fle (Finite 0) (of_ulps false n).
Proof.
  intros Hn. unfold of_ulps. destruct (_ <=? _); [done |].
  destruct (Z.eqb_spec n 0); cbn [fle]; [lra |].
  rewrite Qred_correct. unfold Qle. cbn [Qnum Qden]. lia.
Qed.

Lemma of_ulps_neg n : 0 <= n -> fle (of_ulps true n) (Finite 0).
Proof.
  intros Hn. unfold of_ulps. destruct (_ <=? _); [done |].
  destruct (Z.eqb_spec n 0); cbn [fle]; [lra |].
  rewrite Qred_correct. unfold Qle. cbn [Qnum Qden]. lia.
Qed.

Lemma of_ulps_pos_mono a b : 0 <= a <= b -> fle (of_ulps false a) (of_ulps false b).
Proof.
  intros Hab. unfold of_ulps.
  destruct (Z.leb_spec (2 ^ 2098) a), (Z.leb_spec (2 ^ 2098) b);
    [done | lia | by repeat case_match |].
  generalize (Z.to_pos (2 ^ 1074)); intros g.
  destruct (Z.eqb_spec a 0), (Z.eqb_spec b 0); cbn [fle];
    rewrite ?Qred_correct; unfold Qle; cbn [Qnum Qden]; nia.
Qed.

Lemma of_ulps_neg_mono a b : 0 <= a <= b -> fle (of_ulps true b) (of_ulps true a).
Proof.
  intros Hab. unfold of_ulps.
  destruct (Z.leb_spec (2 ^ 2098) a), (Z.leb_spec (2 ^ 2098) b);
    [done | lia | by repeat case_match |].
  generalize (Z.to_pos (2 ^ 1074)); intros g.
  destruct (Z.eqb_spec a 0), (Z.eqb_spec b 0); cbn [fle];
    rewrite ?Qred_correct; unfold Qle; cbn [Qnum Qden]; nia.
Qed.

Lemma fl_mono x y : (x <= y)%Q -> fle (fl x) (fl y).
Proof.
  intros Hxy. unfold fl.
  destruct (Qcompare_spec x 0) as [Hx | Hx | Hx], (Qcompare_spec y 0) as [Hy | Hy | Hy].
  - cbn [fle]. lra.
  - exfalso. lra.
  - apply of_ulps_pos, ulps_nonneg. lra.
  - apply of_ulps_neg, ulps_nonneg. lra.
  - apply of_ulps_neg_mono. split; [apply ulps_nonneg | apply ulps_mono]; lra.
  - apply fle_trans with (Finite 0);
      [apply of_ulps_neg | apply of_ulps_pos]; apply ulps_nonneg; lra.
  - exfalso. lra.
  - exfalso. lra.
  - apply of_ulps_pos_mono. split; [apply ulps_nonneg | apply ulps_mono]; lra.
Qed.

Lemma fl_1 : fl 1 = Finite 1.
Proof. vm_compute. reflexivity. Qed.


Lemma fl_not_nan q : fl q <> NaN.
Proof. unfold fl, of_ulps. by repeat case_match. Qed.


Lemma fle_refl x : x <> NaN -> fle x x.
Proof. destruct x as [q | | [] |]; cbn [fle]; try done. lra. Qed.

Lemma py_round_finite q ndigits :
  exists n, n = round_half_even (q * inject_Z (10 ^ Z.of_nat ndigits)) /\
    (py_round (Finite q) ndigits = fl (inject_Z n / inject_Z (10 ^ Z.of_nat ndigits)) \/
     py_round (Finite q) ndigits = NegZero /\ n = 0).
Proof.
  eexists. split; [done |]. unfold py_round. repeat case_match; auto.
Qed.

Lemma scale_pos ndigits : (0 < inject_Z (10 ^ Z.of_nat ndigits))%Q.
Proof.
  change 0%Q with (inject_Z 0). rewrite <- Zlt_Qlt. apply Z.pow_pos_nonneg; lia.
Qed.

Lemma fl_zero r : (r == 0)%Q -> fl r = Finite 0.
Proof. intros Hr. unfold fl. destruct (Qcompare_spec r 0); [done | lra | lra]. Qed.

(** [round(x, n)] and the nearest double of the decimal rounding are equal
    up to the sign of zero. *)
Lemma py_round_between q ndigits :
  let r := (inject_Z (round_half_even (q * inject_Z (10 ^ Z.of_nat ndigits))) /
            inject_Z (10 ^ Z.of_nat ndigits))%Q in
  fle (py_round (Finite q) ndigits) (fl r) /\ fle (fl r) (py_round (Finite q) ndigits).
Proof.
  intros r. destruct (py_round_finite q ndigits) as (n & Hn & [-> | [-> ->]]).
  - subst n. split; apply fle_refl, fl_not_nan.
  - subst r. rewrite <- Hn. rewrite fl_zero; [cbn [fle]; lra |].
    unfold Qdiv. apply Qmult_0_l.
Qed.

Lemma decimal_mono p q ndigits :
  (p <= q)%Q ->
  (inject_Z (round_half_even (p * inject_Z (10 ^ Z.of_nat ndigits))) /
     inject_Z (10 ^ Z.of_nat ndigits) <=
   inject_Z (round_half_even (q * inject_Z (10 ^ Z.of_nat ndigits))) /
     inject_Z (10 ^ Z.of_nat ndigits))%Q.
Proof.
  intros Hpq. pose proof (scale_pos ndigits) as Hs.
  assert (round_half_even (p * inject_Z (10 ^ Z.of_nat ndigits)) <=
          round_half_even (q * inject_Z (10 ^ Z.of_nat ndigits))) as H
    by (apply round_half_even_mono; nra).
  rewrite Zle_Qle in H. unfold Qdiv. apply Qmult_le_compat_r; [done |].
  apply Qlt_le_weak, Qinv_lt_0_compat, Hs.
Qed.

Lemma py_round_not_nan x ndigits : x <> NaN -> py_round x ndigits <> NaN.
Proof.
  destruct x as [q | | [] |]; try done. intros _. unfold py_round.
  repeat case_match; try done; apply fl_not_nan.
Qed.

Lemma fle_top x : x <> NaN -> fle x (Inf false).
Proof. by destruct x as [q | | [] |]. Qed.

Lemma fle_bottom x : x <> NaN -> fle (Inf true) x.
Proof. by destruct x as [q | | [] |]. Qed.

Lemma py_round_mono x y ndigits :
  fle x y -> fle (py_round x ndigits) (py_round y ndigits).
Proof.
  destruct x as [p | | [] |], y as [q | | [] |]; try done; cbn [fle]; intros Hxy.
  - destruct (py_round_between p ndigits) as [Hp _], (py_round_between q ndigits) as [_ Hq].
    eapply fle_trans; [exact Hp |]. eapply fle_trans; [| exact Hq].
    apply fl_mono, decimal_mono, Hxy.
  - destruct (py_round_between p ndigits) as [Hp _].
    eapply fle_trans; [exact Hp |]. change (py_round NegZero ndigits) with NegZero.
    apply fle_trans with (Finite 0); [| cbn [fle]; lra].
    rewrite <- (fl_zero 0) by lra. apply fl_mono.
    pose proof (decimal_mono p 0 ndigits Hxy) as H.
    change (round_half_even (0 * _)) with 0 in H. unfold Qdiv in H at 2.
    rewrite Qmult_0_l in H. exact H.
  - by apply fle_top, py_round_not_nan.
  - destruct (py_round_between q ndigits) as [_ Hq].
    eapply fle_trans; [| exact Hq]. change (py_round NegZero ndigits) with NegZero.
    apply fle_trans with (Finite 0); [cbn [fle]; lra |].
    rewrite <- (fl_zero 0) by lra. apply fl_mono.
    pose proof (decimal_mono 0 q ndigits Hxy) as H.
    change (round_half_even (0 * _)) with 0 in H. unfold Qdiv in H at 1.
    rewrite Qmult_0_l in H. exact H.
  - by apply fle_bottom, py_round_not_nan.
Qed.



Lemma fsub_one_antimono d1 d2 : fle d1 d2 -> fle (fsub one d2) (fsub one d1).
Proof.
  pose proof (fun q => fl_mono 1 (1 - q)) as Hlo. pose proof (fun q => fl_mono (1 - q) 1) as Hhi.
  rewrite fl_1 in Hlo, Hhi.
  destruct d1 as [p | | [] |], d2 as [q | | [] |]; try done;
    intros H; cbn [fle] in H; cbn [fsub one negb];
    first [ apply fl_mono; lra
          | apply Hlo; lra
          | apply Hhi; lra
          | apply fle_bottom, fl_not_nan
          | apply fle_top, fl_not_nan
          | cbn [fle]; lra
          | done ].
Qed.

Lemma relevance_antimono d1 d2 :
  fle d1 d2 -> fle (py_round (fsub one d2) 4) (py_round (fsub one d1) 4).
Proof. intros H. by apply py_round_mono, fsub_one_antimono. Qed.

(** ** The relevance score *)


(** A chunk at distance 2^-20 of the query is reported with the score 1,
    not with 1 - 2^-20: the score is rounded to four decimals. *)
Lemma relevance_is_rounded : ~ relevance_is_exact_similarity.
Proof.
  intros Hclaim.
  destruct (Hclaim demo.env demo.ready "hello" 5 demo.world
              (demo.response demo.search) (snd demo.search)
              (demo.results (demo.response demo.search)) 1%nat
              ({| vr_document_id := "doc-1"; vr_content := "world";
                  score := Finite (1 # 1048576) |}, demo.notes)
              (default VNone (demo.results (demo.response demo.search) !! 1%nat)))
    as (q & dq & Hd & Hq & Heq).
  - vm_compute. reflexivity.
  - vm_compute. reflexivity.
  - vm_compute. reflexivity.
  - vm_compute. reflexivity.
  - cbn in Hd. injection Hd as <-. vm_compute in Hq. injection Hq as <-.
    vm_compute in Heq. discriminate.
Qed.


Lemma relevance_score_result_of (p : joined) :
  relevance_score (result_of p) = fsub one (score p.1).
Proof. reflexivity. Qed.



(** The two chunks of [demo.library], at the distances 0 and 1/4, are
    reported with the scores 1.0 and 0.75. *)
Example scores_of_library :
  map (field "relevance_score") (demo.results (demo.response demo.browse)) =
    [Some (VFloat (Finite 1)); Some (VFloat (Finite (3 # 4)))].
Proof. vm_compute. reflexivity. Qed.

(** C3, amended. The store hands over the raw distance [d] of each match;
    the results of a search are, position by position, those of the
    matches whose document is known, and each reports
    [round(1.0 - d, 4)]: the float difference [1.0 - d], taken by the
    orchestrator, rounded to four decimals. *)
Theorem relevance_is_rounded_similarity E self query limit w d w' rs :
  DocumentService.search_documents E self query limit w = (Ret d, w') ->
  d !! "results" = Some (VList rs) ->
  Forall2 (fun (p : joined) r =>
             field "relevance_score" r =
               Some (VFloat (py_round (fsub one (score p.1)) 4)))
          (resolvable (documents w) (nearest E (chunks w) (embed E (strip query)) limit))
          rs.
Proof.
  intros Hrun Hrs.
  rewrite (search_documents_results _ _ _ _ _ _ _ _ Hrun Hrs).
  apply Forall2_fmap_r, Forall_Forall2_diag, Forall_forall. intros p _.
  unfold compose. by rewrite field_relevance_score, relevance_score_result_of.
Qed.

Lemma relevance_is_rounded_similarity_witness :
  Forall2 (fun (p : joined) r =>
             field "relevance_score" r =
               Some (VFloat (py_round (fsub one (score p.1)) 4)))
          (resolvable (documents demo.world)
                      (demo.line_index (chunks demo.world) [Finite 0] 5))
          (demo.results (demo.response demo.search)).
Proof.
  apply (relevance_is_rounded_similarity demo.env demo.ready "hello" 5 demo.world
           (demo.response demo.search) (snd demo.search)).
  - vm_compute. reflexivity.
  - vm_compute. reflexivity.
Defined.

(** A distance of [0.00005], the double nearest to that decimal, gives the
    difference [1.0 - d] the double just above [0.99995], which rounds to
    [1.0]; the distances 3/2 and 2^-20 give -0.5 and 1.0. *)
Example rounding_of_the_difference :
  py_round (fsub one (fl (5 # 100000))) 4 = Finite 1 /\
  py_round (fsub one (Finite (3 # 2))) 4 = Finite (-1 # 2) /\
  py_round (fsub one (Finite (1 # 1048576))) 4 = Finite 1.
Proof. vm_compute. repeat split; reflexivity. Qed.

(** ** The chunker *)

Lemma substring_empty n m : String.substring n m "" = "".
Proof. by destruct n, m. Qed.

Lemma substring_length s : forall n m,
  (n + m <= String.length s)%nat -> String.length (String.substring n m s) = m.
Proof.
  induction s as [| c s IH]; intros n m Hlen; simpl in Hlen.
  - assert (n = 0 /\ m = 0)%nat as [-> ->] by lia. done.
  - destruct n as [| n], m as [| m]; simpl; try done.
    + f_equal. apply IH. lia.
    + apply IH. lia.
    + apply IH. lia.
Qed.

Lemma substring_substring s : forall a n b m,
  (a + n <= m)%nat ->
  String.substring a n (String.substring b m s) = String.substring (b + a) n s.
Proof.
  induction s as [| c s IH]; intros a n b m Hfit.
  - by rewrite !substring_empty.
  - destruct b as [| b].
    + destruct m as [| m].
      * assert (a = 0 /\ n = 0)%nat as [-> ->] by lia. done.
      * destruct a as [| a], n as [| n]; simpl; try done.
        -- f_equal. rewrite (IH 0 n 0 m)%nat by lia. done.
        -- rewrite (IH a 0 0 m)%nat by lia. done.
        -- rewrite (IH a (S n) 0 m)%nat by lia. done.
    + change (String.substring (S b) m (String c s)) with (String.substring b m s).
      change (String.substring (S b + a) n (String c s))
        with (String.substring (b + a) n s).
      by apply IH.
Qed.

(** The [i]-th window starts [i] steps after the first, and a window that
    has a successor ends before the end of the text. *)
Lemma sliding_window_lookup chunk_size chunk_overlap text start :
  (chunk_overlap < chunk_size)%nat ->
  forall i a,
    chunker.sliding_window chunk_size chunk_overlap text start !! i = Some a ->
    a = String.substring (start + i * (chunk_size - chunk_overlap)) chunk_size text /\
    (is_Some (chunker.sliding_window chunk_size chunk_overlap text start !! S i) ->
     (start + i * (chunk_size - chunk_overlap) + chunk_size < String.length text)%nat).
Proof.
  intros Hvalid.
  funelim (chunker.sliding_window chunk_size chunk_overlap text start);
    intros i a Hi.
  - destruct i as [| i]; [| done]. injection Hi as <-.
    split; [f_equal; lia | by intros [? ?]].
  - lia.
  - destruct i as [| i].
    + injection Hi as <-. split; [f_equal; lia | intros _; lia].
    + change (chunker.sliding_window chunk_size chunk_overlap text (start + S step) !! i
              = Some a) in Hi.
      match goal with
      | IH : _ -> forall i a, _ -> _ |- _ => destruct (IH Hvalid i a Hi) as [-> Hnext]
      end.
      rewrite Heq in *. split; [f_equal; lia |].
      intros Hsome.
      change (is_Some (chunker.sliding_window chunk_size chunk_overlap text
                         (start + S step) !! S i)) in Hsome.
      specialize (Hnext Hsome). lia.
Qed.

(** C7. For a valid configuration with overlap [o > 0], two consecutive
    chunks of the sliding window share [o] characters: the last [o]
    characters of a chunk are the first [o] characters of the next one;
    and a chunk that has a successor, that is every chunk but the final
    one, has exactly [chunk_size] characters. *)
Theorem consecutive_chunks_overlap (chunk_size chunk_overlap : nat) (text : string) (i : nat) (a b : string) :
  (0 < chunk_overlap < chunk_size)%nat ->
  chunker.chunk_text chunk_size chunk_overlap text !! i = Some a ->
  chunker.chunk_text chunk_size chunk_overlap text !! S i = Some b ->
  chunker.last_chars chunk_overlap a = chunker.first_chars chunk_overlap b /\
  String.length (chunker.first_chars chunk_overlap b) = chunk_overlap /\
  String.length a = chunk_size.
Proof.
  intros [Hpos Hvalid]. unfold chunker.chunk_text.
  destruct text as [| c0 rest]; [done |].
  generalize (String c0 rest). clear c0 rest. intros text Ha Hb.
  destruct (sliding_window_lookup _ _ _ _ Hvalid _ _ Ha) as [-> Hroom].
  destruct (sliding_window_lookup _ _ _ _ Hvalid _ _ Hb) as [-> _].
  specialize (Hroom (ex_intro _ _ Hb)).
  unfold chunker.last_chars, chunker.first_chars.
  rewrite (substring_length text (0 + i * (chunk_size - chunk_overlap)) chunk_size) by lia.
  rewrite !substring_substring by lia.
  split; [f_equal; lia |]. split; [| done].
  apply substring_length. lia.
Qed.

Lemma consecutive_chunks_overlap_witness :
  chunker.last_chars 2 "abcdefghij" = chunker.first_chars 2 "ijklmnopqr" /\
  String.length (chunker.first_chars 2 "ijklmnopqr") = 2%nat /\
  String.length "abcdefghij" = 10%nat.
Proof.
  apply (consecutive_chunks_overlap 10 2 "abcdefghijklmnopqrstuvwxyz" 0).
  - lia.
  - reflexivity.
  - reflexivity.
Defined.

(** The scenario of the specification: 250 characters with
    [chunk_size = 100] and [chunk_overlap = 20] give three chunks, of 100,
    100 and 90 characters. *)
Example chunk_text_250 :
  map String.length
      (chunker.chunk_text 100 20 (String.string_of_list_ascii (replicate 250 "x"%char))) =
    [100; 100; 90]%nat.
Proof. vm_compute. reflexivity. Qed.

(** ** Concurrent first calls *)

Lemma single_instance_initial callers : single_instance (lazy_init.initial callers).
Proof.
  unfold single_instance. simpl. repeat split.
  apply Forall_replicate. by left.
Qed.

Lemma single_instance_resume ev st :
  single_instance st -> single_instance (lazy_init.resume ev st).
Proof.
  unfold single_instance, lazy_init.resume, lazy_init.set_task.
  destruct (lazy_init.tasks st !! lazy_init.resumed ev) as [k |] eqn:Hk; [| done].
  destruct st as [heap [r |] calls tasks]; simpl in *.
  - intros (-> & Hheap & Hcalls & Htasks).
    pose proof (Forall_lookup_1 _ _ _ _ Htasks Hk) as Hself.
    destruct k as [| self | self | instance |]; simpl; try done.
    + repeat split; try done. by apply Forall_insert.
    + repeat split; try done. apply Forall_insert; [done |]. by destruct (lazy_init.ok ev).
    + destruct (lazy_init.ok ev); simpl.
      * repeat split; try done; [by rewrite length_insert | by apply Forall_insert].
      * repeat split; try done. by apply Forall_insert.
  - intros (-> & -> & Htasks).
    pose proof (Forall_lookup_1 _ _ _ _ Htasks Hk) as [-> | ->]; simpl; [| done].
    destruct (lazy_init.ok ev); simpl.
    + repeat split; try done.
      apply Forall_insert; [| done].
      eapply Forall_impl; [apply Htasks |]. by intros k [-> | ->].
    + repeat split; try done. apply Forall_insert; [done | by right].
Qed.

Lemma single_instance_run schedule st :
  single_instance st -> single_instance (lazy_init.run schedule st).
Proof.
  revert st. induction schedule as [| ev schedule IH]; intros st Hst; [done |].
  simpl. apply IH. by apply single_instance_resume.
Qed.

Lemma single_instance_counts st :
  single_instance st ->
  (lazy_init.initialize_calls st <= 1)%nat /\ (length (lazy_init.heap st) <= 1)%nat /\
  (forall t instance,
     lazy_init.tasks st !! t = Some (lazy_init.Returned instance) -> instance = Some 0%nat).
Proof.
  unfold single_instance. destruct (lazy_init.global st) as [r |].
  - intros (_ & -> & -> & Htasks). repeat split; try lia.
    intros t instance Ht. apply (Forall_lookup_1 _ _ _ _ Htasks Ht).
  - intros (-> & -> & Htasks). repeat split; simpl; try lia.
    intros t instance Ht. by destruct (Forall_lookup_1 _ _ _ _ Htasks Ht).
Qed.

(** No schedule of two concurrent first calls runs [initialize()] twice:
    the caller that finds the global unset sets it before its first
    [await]. *)
Lemma no_double_initialization : ~ lazy_init.double_initialization.
Proof.
  intros [schedule Htwice].
  pose proof (single_instance_run schedule _ (single_instance_initial 2)) as Hinv.
  apply single_instance_counts in Hinv as [Hcalls _]. lia.
Qed.

(** C8, amended. No lock guards the lazy initialisation, yet however many
    first calls interleave at their [await]s, one [DocumentService] is
    constructed at most, [initialize()] runs at most once, and every caller
    that returns holds that one instance. What a caller can observe is the
    instance before its initialisation has completed: in the schedule
    where the second caller enters while the first awaits
    [initialize_database()], the second returns the instance with
    [_initialized] still false. *)
Theorem single_initialization (callers : nat) (schedule : list lazy_init.event) :
  (lazy_init.initialize_calls (lazy_init.run schedule (lazy_init.initial callers)) <= 1)%nat /\
  (length (lazy_init.heap (lazy_init.run schedule (lazy_init.initial callers))) <= 1)%nat /\
  (forall t instance,
     lazy_init.tasks (lazy_init.run schedule (lazy_init.initial callers)) !! t =
       Some (lazy_init.Returned instance) ->
     instance = Some 0%nat) /\
  (exists early : list lazy_init.event,
     lazy_init.tasks (lazy_init.run early (lazy_init.initial 2)) !! 1%nat =
       Some (lazy_init.Returned (Some 0%nat)) /\
     lazy_init.heap (lazy_init.run early (lazy_init.initial 2)) !! 0%nat = Some false).
Proof.
  pose proof (single_instance_counts _
                (single_instance_run schedule _ (single_instance_initial callers)))
    as (Hcalls & Hheap & Hsame).
  repeat split; try done.
  exists [ {| lazy_init.resumed := 0; lazy_init.ok := true |};
           {| lazy_init.resumed := 1; lazy_init.ok := true |} ].
  by split.
Qed.

(** * Further properties of the service and of the tools *)

(** ** The guard *)

(** X1. On a service that has not been initialised, each of the six
    operations raises the [RuntimeError] of the guard, which sits outside
    the operation's own [try], and leaves the world as it was. *)
Theorem uninitialized_service_raises (E : Env) (cfg : config.Config) (self : DocumentService_obj) (w : World) :
  _initialized self = false ->
  (forall file_path, DocumentService.add_document E self file_path w = (Raise not_initialized, w)) /\
  (forall limit offset, DocumentService.list_documents E self limit offset w = (Raise not_initialized, w)) /\
  (forall query limit, DocumentService.search_documents E self query limit w = (Raise not_initialized, w)) /\
  DocumentService.clear_knowledge_base self w = (Raise not_initialized, w) /\
  (forall document_id, DocumentService.get_document_by_id E self document_id w = (Raise not_initialized, w)) /\
  DocumentService.get_statistics cfg self w = (Raise not_initialized, w).
Proof.
  intros Hself.
  unfold DocumentService.add_document, DocumentService.list_documents,
    DocumentService.search_documents, DocumentService.clear_knowledge_base,
    DocumentService.get_document_by_id, DocumentService.get_statistics,
    DocumentService._ensure_initialized, bind.
  rewrite Hself. done.
Qed.

Lemma uninitialized_service_raises_witness :
  (forall file_path, DocumentService.add_document demo.env DocumentService.__init__ file_path demo.world = (Raise not_initialized, demo.world)) /\
  (forall limit offset, DocumentService.list_documents demo.env DocumentService.__init__ limit offset demo.world = (Raise not_initialized, demo.world)) /\
  (forall query limit, DocumentService.search_documents demo.env DocumentService.__init__ query limit demo.world = (Raise not_initialized, demo.world)) /\
  DocumentService.clear_knowledge_base DocumentService.__init__ demo.world = (Raise not_initialized, demo.world) /\
  (forall document_id, DocumentService.get_document_by_id demo.env DocumentService.__init__ document_id demo.world = (Raise not_initialized, demo.world)) /\
  DocumentService.get_statistics sample.config DocumentService.__init__ demo.world = (Raise not_initialized, demo.world).
Proof.
  apply (uninitialized_service_raises demo.env sample.config DocumentService.__init__ demo.world).
  reflexivity.
Defined.

(** ** The lazily created service *)

Lemma collaborator_frame w r w' :
  collaborator w = (r, w') ->
  documents w' = documents w /\ chunks w' = chunks w /\
  _document_service w' = _document_service w.
Proof.
  unfold collaborator. destruct (faults w) as [| [e |] fs]; intros [= <- <-]; done.
Qed.

(** X2. A first call of [get_document_service] either returns an
    initialised service that the global now holds, or raises; when it
    raises, either nothing was stored in the global, or the global holds
    the service it could not initialise and the exception is the wrapper
    ["Document service initialization failed: ..."]. *)
Theorem first_call_outcomes (w : World) :
  _document_service w = None ->
  match server.get_document_service w with
  | (Ret doc_service, w') =>
      _initialized doc_service = true /\ _document_service w' = Some doc_service
  | (Raise e, w') =>
      _document_service w' = None \/
      (_document_service w' = Some {| _initialized := false |} /\
       exists cause,
         e = PyException ("Document service initialization failed: " +:+ str_exn cause))
  end.
Proof.
  destruct w as [ds cs svc fs n]. simpl. intros ->.
  destruct fs as [| [e1 |] [| [e2 |] [| [e3 |] [| [e4 |] fs]]]]; cbn; eauto 6.
Qed.

Lemma first_call_outcomes_witness :
  match server.get_document_service
          (sample.world_with None [None; None; Some sample.disk_full]) with
  | (Ret doc_service, w') =>
      _initialized doc_service = true /\ _document_service w' = Some doc_service
  | (Raise e, w') =>
      _document_service w' = None \/
      (_document_service w' = Some {| _initialized := false |} /\
       exists cause,
         e = PyException ("Document service initialization failed: " +:+ str_exn cause))
  end.
Proof.
  apply (first_call_outcomes (sample.world_with None [None; None; Some sample.disk_full])).
  reflexivity.
Defined.

(** X3. Once the global holds a service that is not initialised, as a
    failed first call leaves it, every tool call answers with a failure
    envelope and calls no collaborator: the initialisation is not tried
    again. *)
Theorem failed_initialization_is_never_retried (E : Env) (c : tool_call) (w : World) :
  _document_service w = Some {| _initialized := false |} ->
  exists d, invoke E c w = (Ret d, w) /\ failure_envelope d.
Proof.
  intros Hstuck.
  assert (server.get_document_service w = (Ret {| _initialized := false |}, w)) as Hget.
  { unfold server.get_document_service, bind, gets. by rewrite Hstuck. }
  destruct c as [file_path | limit offset | query limit |]; simpl.
  - unfold server.add_document, try_except, bind at 1, errors.validate_file_path.
    destruct (str_eqb (strip file_path) "").
    + eexists. split; [reflexivity |]. apply failure_envelope_to_dict.
    + unfold ret at 1, bind at 1. rewrite Hget. cbn.
      eexists. split; [reflexivity |]. apply failure_envelope_create_error_response.
  - unfold server.list_documents, try_except, bind at 1, errors.validate_limit_parameter.
    set (limit' := match limit with Some 0 => None | _ => limit end).
    assert (forall w0 : World,
              exists d,
                (match
                   (errors.validate_offset_parameter offset 100000;;;
                    doc_service <- server.get_document_service;;
                    DocumentService.list_documents E doc_service limit' offset) w
                 with
                 | (Ret a, w') => (Ret a, w')
                 | (Raise e, w') =>
                     match server.handlers
                             {[ "limit" := VOptInt limit'; "offset" := VInt offset;
                                "operation" := VStr "list_documents" ]} e with
                     | Some handler => handler w'
                     | None => (Raise e, w')
                     end
                 end) = (Ret d, w) /\ failure_envelope d) as Hrest.
    { intros _. unfold bind at 1, errors.validate_offset_parameter.
      destruct ((offset <? 0) || (100000 <? offset)).
      - eexists. split; [reflexivity |]. apply failure_envelope_to_dict.
      - unfold ret at 1, bind at 1. rewrite Hget. cbn.
        eexists. split; [reflexivity |]. apply failure_envelope_create_error_response. }
    destruct limit' as [l |]; [| apply (Hrest w)].
    destruct ((l <? 1) || (1000 <? l)); [| apply (Hrest w)].
    eexists. split; [reflexivity |]. apply failure_envelope_to_dict.
  - unfold server.search_documents, try_except, bind at 1, errors.validate_query_parameter.
    destruct ((Z.of_nat (length (strip query)) <? 1)
              || (10000 <? Z.of_nat (length query))).
    + eexists. split; [reflexivity |]. apply failure_envelope_to_dict.
    + unfold ret at 1, bind at 1, errors.validate_limit_parameter.
      destruct ((limit <? 1) || (100 <? limit)).
      * eexists. split; [reflexivity |]. apply failure_envelope_to_dict.
      * unfold ret at 1, bind at 1. rewrite Hget. cbn.
        eexists. split; [reflexivity |]. apply failure_envelope_create_error_response.
  - unfold server.clear_knowledge_base, try_except, bind at 1. rewrite Hget. cbn.
    eexists. split; [reflexivity |]. apply failure_envelope_create_error_response.
Qed.

Lemma failed_initialization_is_never_retried_witness :
  exists d,
    invoke demo.env ClearKnowledgeBase
      (snd (server.get_document_service
              (sample.world_with None [None; None; Some sample.disk_full]))) =
      (Ret d, snd (server.get_document_service
                     (sample.world_with None [None; None; Some sample.disk_full]))) /\
    failure_envelope d.
Proof.
  apply (failed_initialization_is_never_retried demo.env ClearKnowledgeBase).
  reflexivity.
Defined.

(** ** Cleaning up *)

(** X4. [DocumentService.cleanup] never raises and never touches the
    tables; it resets [_initialized] only when both releases went well;
    and when releasing the embedding model fails, the store is not closed
    and the service still counts as initialised. *)
Theorem cleanup_never_raises (self : DocumentService_obj) (w : World) :
  exists self' w',
    DocumentService.cleanup self w = (Ret self', w') /\
    documents w' = documents w /\ chunks w' = chunks w /\
    (self' = {| _initialized := false |} /\ raised w' = raised w \/
     self' = self /\ (raised w < raised w')%nat) /\
    (forall e fs, faults w = Some e :: fs -> self' = self /\ faults w' = fs).
Proof.
  destruct w as [ds cs svc fs n].
  destruct fs as [| [e1 |] [| [e2 |] fs]]; cbn; eexists _, _;
    (split; [reflexivity |]); (split; [done |]); (split; [done |]);
    (split;
     [ first [ left; split; [reflexivity | done]
             | right; split; [reflexivity | cbn; lia] ]
     | intros e0 fs' Hf; first [discriminate Hf | by injection Hf as -> ->] ]).
Qed.

(** X5. [cleanup_server] never raises, leaves the tables alone, and
    leaves the global unset, whether or not the cleanup of the service
    went well. *)
Theorem cleanup_server_resets (w : World) :
  exists w',
    server.cleanup_server w = (Ret tt, w') /\
    _document_service w' = None /\
    documents w' = documents w /\ chunks w' = chunks w.
Proof.
  destruct w as [ds cs [doc_service |] fs n]; [| by eexists].
  destruct fs as [| [e1 |] [| [e2 |] fs]]; cbn; by eexists.
Qed.

Lemma calm_set_document_service o w : calm w -> calm (set_document_service o w).
Proof. done. Qed.

Lemma run_initialize self w :
  calm w ->
  DocumentService.initialize self w = (Ret {| _initialized := true |}, tick (tick w)).
Proof.
  intros Hw.
  unfold DocumentService.initialize, try_except, bind,
    LanceDBManager.initialize_database, EmbeddingService.load_model.
  rewrite run_collaborator by done.
  by rewrite run_collaborator by by apply calm_tick.
Qed.

(** The first call on a world in which nothing fails. *)
Lemma run_get_document_service w :
  calm w -> _document_service w = None ->
  exists w',
    server.get_document_service w = (Ret {| _initialized := true |}, w') /\
    calm w' /\ documents w' = documents w /\ chunks w' = chunks w /\
    _document_service w' = Some {| _initialized := true |}.
Proof.
  intros Hw Hnone.
  unfold server.get_document_service, bind at 1, gets. rewrite Hnone.
  unfold server.Config_from_env, server.DocumentService_new,
    server.assign_document_service, bind, modify.
  rewrite run_collaborator by done.
  rewrite run_collaborator by by apply calm_tick.
  cbn [ret]. rewrite run_initialize by by do 2 apply calm_tick.
  eexists. split; [reflexivity |].
  split; [| done]. by do 4 apply calm_tick.
Qed.

(** X6. After [cleanup_server], when nothing fails, the next call of
    [get_document_service] builds and initialises a new service over the
    same tables, also when the previous one was stuck uninitialised. *)
Theorem cleanup_server_allows_a_fresh_start (w : World) :
  calm w ->
  exists w1 w2,
    server.cleanup_server w = (Ret tt, w1) /\
    server.get_document_service w1 = (Ret {| _initialized := true |}, w2) /\
    _document_service w2 = Some {| _initialized := true |} /\
    documents w2 = documents w /\ chunks w2 = chunks w.
Proof.
  intros Hw.
  assert (exists w1, server.cleanup_server w = (Ret tt, w1) /\ calm w1 /\
                     _document_service w1 = None /\
                     documents w1 = documents w /\ chunks w1 = chunks w)
    as (w1 & Hclean & Hw1 & Hnone & Hdocs & Hchunks).
  { unfold server.cleanup_server, try_except, bind at 1, gets.
    destruct (_document_service w) as [doc_service |] eqn:Hcurrent.
    - unfold DocumentService.cleanup, try_except, bind,
        EmbeddingService.cleanup, LanceDBManager.close,
        server.assign_document_service, modify.
      rewrite run_collaborator by done.
      rewrite run_collaborator by by apply calm_tick.
      eexists. split; [reflexivity |]. split; [| done]. by do 2 apply calm_tick.
    - by exists w. }
  destruct (run_get_document_service w1 Hw1 Hnone) as (w2 & Hget & _ & Hdocs2 & Hchunks2 & Hsvc).
  exists w1, w2. repeat split; try done; congruence.
Qed.

Lemma cleanup_server_allows_a_fresh_start_witness :
  exists w1 w2,
    server.cleanup_server (sample.world_with (Some {| _initialized := false |}) []) = (Ret tt, w1) /\
    server.get_document_service w1 = (Ret {| _initialized := true |}, w2) /\
    _document_service w2 = Some {| _initialized := true |} /\
    documents w2 = documents (sample.world_with (Some {| _initialized := false |}) []) /\
    chunks w2 = chunks (sample.world_with (Some {| _initialized := false |}) []).
Proof.
  apply (cleanup_server_allows_a_fresh_start
           (sample.world_with (Some {| _initialized := false |}) [])).
  constructor.
Defined.

(** ** Ingestion *)

Lemma bind_run {A B} (m : M A) (k : A -> M B) w :
  bind m k w =
    match m w with
    | (Ret a, w1) => k a w1
    | (Raise e, w1) => (Raise e, w1)
    end.
Proof. reflexivity. Qed.

Lemma try_run {A} (m : M A) h w :
  try_except m h w =
    match m w with
    | (Ret a, w1) => (Ret a, w1)
    | (Raise e, w1) =>
        match h e with
        | Some handler => handler w1
        | None => (Raise e, w1)
        end
    end.
Proof. reflexivity. Qed.

Lemma add_document_vectors_cases md cs w :
  (exists w', LanceDBManager.add_document_vectors md cs w = (Ret tt, w') /\
              documents w' = (documents w ++ [md])%list /\
              chunks w' = (chunks w ++ cs)%list) \/
  (exists e w', LanceDBManager.add_document_vectors md cs w = (Raise e, w') /\
                documents w' = documents w /\ chunks w' = chunks w).
Proof.
  unfold LanceDBManager.add_document_vectors. rewrite bind_run.
  destruct (collaborator w) as [[[] | e] w1] eqn:H1;
    apply collaborator_frame in H1 as (Hd & Hc & _).
  - left. eexists. split; [reflexivity |]. simpl. by rewrite Hd, Hc.
  - right. by eexists _, _.
Qed.

Lemma generate_embeddings_cases E texts w :
  (exists w', EmbeddingService.generate_embeddings E texts w = (Ret (embed_batch E texts), w') /\
              documents w' = documents w /\ chunks w' = chunks w) \/
  (exists e w', EmbeddingService.generate_embeddings E texts w = (Raise e, w') /\
                documents w' = documents w /\ chunks w' = chunks w).
Proof.
  unfold EmbeddingService.generate_embeddings. rewrite bind_run.
  destruct (collaborator w) as [[[] | e] w1] eqn:H1;
    apply collaborator_frame in H1 as (Hd & Hc & _).
  - left. by eexists.
  - right. by eexists _, _.
Qed.

(** X7. [add_document] on an initialised service always returns a
    response; either it is a success and the store has gained exactly the
    metadata, stamped with the current time, and the chunks with their
    vectors, or it is a failure envelope and both tables are as before. *)
Theorem add_document_all_or_nothing (E : Env) (self : DocumentService_obj) (file_path : str) (w : World) :
  _initialized self = true ->
  exists d w',
    DocumentService.add_document E self file_path w = (Ret d, w') /\
    (success_envelope d /\
     documents w' = (documents w ++ [ingested_metadata E file_path])%list /\
     chunks w' = (chunks w ++ ingested_chunks E file_path)%list
     \/
     failure_envelope d /\ documents w' = documents w /\ chunks w' = chunks w).
Proof.
  intros Hinit. unfold ingested_metadata, ingested_chunks.
  unfold DocumentService.add_document. rewrite bind_run, run_ensure_initialized by done.
  rewrite try_run, bind_run, try_run.
  unfold ContentExtractor.extract_and_chunk. rewrite !bind_run.
  destruct (collaborator w) as [[[] | e1] w1] eqn:H1;
    apply collaborator_frame in H1 as (Hd1 & Hc1 & _).
  2: { destruct e1; cbn [ret]; eexists _, _; (split; [reflexivity |]); right;
       (split; [envelope | done]). }
  cbn [ret]. destruct (read_and_chunk E file_path) as [metadata0 chunks0]. cbn [fst snd].
  rewrite bind_run.
  destruct chunks0 as [| c cs].
  - cbn [ret]. rewrite bind_run.
    destruct (add_document_vectors_cases
                (DocumentService.set_ingestion_timestamp (utcnow E) metadata0) [] w1)
      as [(w2 & -> & Hd2 & Hc2) | (e & w2 & -> & Hd2 & Hc2)].
    + eexists _, _. split; [reflexivity |]. left.
      split; [reflexivity |]. by rewrite Hd2, Hc2, Hd1, Hc1.
    + cbn [ret]. eexists _, _. split; [reflexivity |]. right.
      split; [envelope |]. by rewrite Hd2, Hc2.
  - rewrite bind_run.
    destruct (generate_embeddings_cases E (map content (c :: cs)) w1)
      as [(w2 & -> & Hd2 & Hc2) | (e & w2 & -> & Hd2 & Hc2)].
    + cbn [ret]. rewrite bind_run.
      destruct (add_document_vectors_cases
                  (DocumentService.set_ingestion_timestamp (utcnow E) metadata0)
                  (DocumentService.assign_embeddings (c :: cs)
                     (embed_batch E (map content (c :: cs)))) w2)
        as [(w3 & -> & Hd3 & Hc3) | (e & w3 & -> & Hd3 & Hc3)].
      * eexists _, _. split; [reflexivity |]. left.
        split; [reflexivity |]. by rewrite Hd3, Hc3, Hd2, Hc2, Hd1, Hc1.
      * cbn [ret]. eexists _, _. split; [reflexivity |]. right.
        split; [envelope |]. by rewrite Hd3, Hc3, Hd2, Hc2.
    + cbn [ret]. eexists _, _. split; [reflexivity |]. right.
      split; [envelope |]. by rewrite Hd2, Hc2.
Qed.


Lemma add_document_all_or_nothing_witness :
  exists d w',
    DocumentService.add_document demo.env demo.ready "/kb/notes.txt" demo.world = (Ret d, w') /\
    (success_envelope d /\
     documents w' = (documents demo.world ++ [ingested_metadata demo.env "/kb/notes.txt"])%list /\
     chunks w' = (chunks demo.world ++ ingested_chunks demo.env "/kb/notes.txt")%list
     \/
     failure_envelope d /\ documents w' = documents demo.world /\ chunks w' = chunks demo.world).
Proof.
  apply (add_document_all_or_nothing demo.env demo.ready "/kb/notes.txt" demo.world).
  reflexivity.
Defined.

Lemma run_collaborator_fault w e fs :
  faults w = Some e :: fs ->
  exists w', collaborator w = (Raise e, w') /\ faults w' = fs /\
             documents w' = documents w /\ chunks w' = chunks w.
Proof. intros H. unfold collaborator. rewrite H. by eexists. Qed.

(** X8. When the content extractor fails, [add_document] calls nothing
    else; a [FileProcessingError] is reported with its own [error_type],
    message and details, any other exception as
    ["document_ingestion_error"] with the path in the details. *)
Theorem add_document_reports_extractor_error (E : Env) (self : DocumentService_obj) (file_path : str) (w : World) (e : exn) (fs : list (option exn)) :
  _initialized self = true -> faults w = Some e :: fs ->
  exists d w',
    DocumentService.add_document E self file_path w = (Ret d, w') /\
    faults w' = fs /\
    d !! "success" = Some (VBool false) /\
    d !! "error_type" =
      Some (VStr (match e with
                  | FileProcessingError t _ _ => t
                  | _ => "document_ingestion_error"
                  end)) /\
    d !! "error_message" =
      Some (VStr (match e with
                  | FileProcessingError _ m _ => m
                  | _ => "Failed to add document: " +:+ str_exn e
                  end)) /\
    d !! "error_details" =
      Some (VDict (match e with
                   | FileProcessingError _ _ details => details
                   | _ => {[ "file_path" := VStr file_path; "error" := VStr (str_exn e) ]}
                   end)).
Proof.
  intros Hinit Hfault.
  unfold DocumentService.add_document. rewrite bind_run, run_ensure_initialized by done.
  rewrite try_run, bind_run, try_run.
  unfold ContentExtractor.extract_and_chunk. rewrite !bind_run.
  destruct (run_collaborator_fault w e fs Hfault) as (w1 & -> & Hfs & _).
  destruct e; cbn [ret]; eexists _, _; (split; [reflexivity |]); by repeat split.
Qed.

Lemma add_document_reports_extractor_error_witness :
  exists d w',
    DocumentService.add_document demo.env demo.ready "/kb/big.bin"
      (sample.world_with None [Some sample.unsupported]) = (Ret d, w') /\
    faults w' = [] /\
    d !! "success" = Some (VBool false) /\
    d !! "error_type" = Some (VStr "unsupported_file_type") /\
    d !! "error_message" = Some (VStr "Unsupported file type: .bin") /\
    d !! "error_details" = Some (VDict {[ "file_path" := VStr "/kb/big.bin" ]}).
Proof.
  apply (add_document_reports_extractor_error demo.env demo.ready "/kb/big.bin"
           (sample.world_with None [Some sample.unsupported]) sample.unsupported []).
  - reflexivity.
  - reflexivity.
Defined.

(** X9. Assigning the embeddings keeps the number and the order of the
    chunks; chunk [i] receives the vector [i] when there is one, and is
    left as it was when the embedding service returned fewer vectors than
    chunks. *)
Theorem assign_embeddings_zip (cs : list DocumentChunk) (es : list embedding_vector) :
  length (DocumentService.assign_embeddings cs es) = length cs /\
  forall i c,
    cs !! i = Some c ->
    DocumentService.assign_embeddings cs es !! i =
      Some (match es !! i with
            | Some v => DocumentService.set_embedding v c
            | None => c
            end).
Proof.
  revert es. induction cs as [| c0 cs IH]; intros es; [done |].
  destruct es as [| v es].
  - split; [done |]. intros i c Hi. by rewrite lookup_nil.
  - destruct (IH es) as [Hlen Hlookup]. split; [simpl; by rewrite Hlen |].
    intros [| i] c Hi; simpl in *; [by injection Hi as -> |]. by apply Hlookup.
Qed.

(** ** Searching, again *)

(** X10. [search_documents] answers a query that is blank once stripped
    with the ["invalid_query"] envelope, quoting the query as given, and
    calls no collaborator. *)
Theorem blank_query_is_rejected (E : Env) (self : DocumentService_obj) (query : str) (limit : Z) (w : World) :
  _initialized self = true -> strip query = "" ->
  exists d,
    DocumentService.search_documents E self query limit w = (Ret d, w) /\
    failure_envelope d /\
    d !! "error_type" = Some (VStr "invalid_query") /\
    d !! "error_details" = Some (VDict {[ "query" := VStr query ]}).
Proof.
  intros Hinit Hblank.
  unfold DocumentService.search_documents. rewrite bind_run, run_ensure_initialized by done.
  rewrite try_run, Hblank. cbn [str_eqb ret].
  eexists. split; [reflexivity |]. split; [envelope | done].
Qed.

Lemma blank_query_is_rejected_witness :
  exists d,
    DocumentService.search_documents demo.env demo.ready demo.blank 5 demo.world =
      (Ret d, demo.world) /\
    failure_envelope d /\
    d !! "error_type" = Some (VStr "invalid_query") /\
    d !! "error_details" = Some (VDict {[ "query" := VStr demo.blank ]}).
Proof.
  apply (blank_query_is_rejected demo.env demo.ready demo.blank 5 demo.world); reflexivity.
Defined.

(** X11. When the embedding of the query is empty, [search_documents]
    answers ["embedding_generation_error"] after that single call: the
    store is not searched. *)
Theorem empty_embedding_stops_the_search (E : Env) (self : DocumentService_obj) (query : str) (limit : Z) (w : World) :
  _initialized self = true -> calm w ->
  strip query <> "" -> embed E (strip query) = [] ->
  exists d,
    DocumentService.search_documents E self query limit w = (Ret d, tick w) /\
    failure_envelope d /\
    d !! "error_type" = Some (VStr "embedding_generation_error").
Proof.
  intros Hinit Hw Hquery Hvec.
  unfold DocumentService.search_documents. rewrite bind_run, run_ensure_initialized by done.
  rewrite try_run.
  destruct (str_eqb_spec (strip query) ""); [done |].
  rewrite bind_run, run_generate_embedding, Hvec by done. cbn [ret].
  eexists. split; [reflexivity |]. split; [envelope | done].
Qed.

Lemma empty_embedding_stops_the_search_witness :
  exists d,
    DocumentService.search_documents sample.mute_env demo.ready "hello" 5 demo.world =
      (Ret d, tick demo.world) /\
    failure_envelope d /\
    d !! "error_type" = Some (VStr "embedding_generation_error").
Proof.
  apply (empty_embedding_stops_the_search sample.mute_env demo.ready "hello" 5 demo.world).
  - reflexivity.
  - constructor.
  - vm_compute. discriminate.
  - reflexivity.
Defined.

Lemma run_search_documents E self query limit w :
  _initialized self = true -> calm w ->
  strip query <> "" -> embed E (strip query) <> [] ->
  exists d w',
    DocumentService.search_documents E self query limit w = (Ret d, w') /\
    d !! "success" = Some (VBool true) /\
    d !! "query" = Some (VStr query) /\
    d !! "results" =
      Some (VList (map (fun p => DocumentService.result_to_dict E (result_of p))
                       (resolvable (documents w)
                          (nearest E (chunks w) (embed E (strip query)) limit)))).
Proof.
  intros Hinit Hw Hquery Hvec.
  unfold DocumentService.search_documents. rewrite bind_run, run_ensure_initialized by done.
  rewrite try_run.
  destruct (str_eqb_spec (strip query) ""); [done |].
  rewrite bind_run, run_generate_embedding by done.
  destruct (embed E (strip query)) as [| x xs] eqn:Hembed; [done |].
  rewrite bind_run, run_search_vectors by by apply calm_tick.
  rewrite bind_run, run_join_metadata by by do 2 apply calm_tick.
  cbn [ret]. eexists _, _. split; [reflexivity |].
  repeat split. simpl. by rewrite map_map.
Qed.

Lemma resolvable_sublist docs matches :
  map fst (resolvable docs matches) `sublist_of` matches.
Proof.
  induction matches as [| vr rest IH]; [done |].
  rewrite resolvable_cons. destruct (lookup_metadata docs (vr_document_id vr)).
  - simpl. by apply sublist_skip.
  - by apply sublist_cons.
Qed.

Lemma resolvable_sorted docs matches :
  StronglySorted (fun a b => fle (score a) (score b)) matches ->
  StronglySorted (fun p q : joined => fle (score p.1) (score q.1)) (resolvable docs matches).
Proof.
  induction matches as [| vr rest IH]; [by constructor |].
  rewrite StronglySorted_cons. intros [Hhead Hrest].
  rewrite resolvable_cons.
  destruct (lookup_metadata docs (vr_document_id vr)) as [md |]; [| by apply IH].
  apply StronglySorted_cons. split; [| by apply IH].
  eapply Forall_impl; [apply resolvable_metadata |].
  intros q [Hq _]. rewrite Forall_forall in Hhead. by apply Hhead.
Qed.

Lemma field_document_id E r :
  field "document_id" (DocumentService.result_to_dict E r) = Some (VStr (sr_document_id r)).
Proof. reflexivity. Qed.

(** X12. The results of a search are the matches of the store in the
    store's order, some of them left out; so when the store returns its
    matches by ascending distance, the [relevance_score] fields of the
    response never increase down the list. *)
Theorem search_keeps_the_ranking (E : Env) (self : DocumentService_obj) (query : str) (limit : Z) (w : World) :
  _initialized self = true -> calm w ->
  strip query <> "" -> embed E (strip query) <> [] ->
  StronglySorted (fun a b => fle (score a) (score b))
                 (nearest E (chunks w) (embed E (strip query)) limit) ->
  exists d w' (kept : list joined) rs scores,
    DocumentService.search_documents E self query limit w = (Ret d, w') /\
    d !! "results" = Some (VList rs) /\
    map fst kept `sublist_of` nearest E (chunks w) (embed E (strip query)) limit /\
    Forall2 (fun (p : joined) r =>
               field "document_id" r = Some (VStr (vr_document_id p.1)))
            kept rs /\
    Forall2 (fun r x => field "relevance_score" r = Some (VFloat x)) rs scores /\
    StronglySorted (fun x1 x2 => fle x2 x1) scores.
Proof.
  intros Hinit Hw Hquery Hvec Hsorted.
  destruct (run_search_documents E self query limit w Hinit Hw Hquery Hvec)
    as (d & w' & Hrun & _ & _ & Hresults).
  exists d, w', (resolvable (documents w) (nearest E (chunks w) (embed E (strip query)) limit)).
  eexists _, (map (fun p : joined => py_round (fsub one (score p.1)) 4) _).
  split; [exact Hrun |]. split; [exact Hresults |].
  split; [apply resolvable_sublist |]. split; [| split].
  - apply Forall2_fmap_r, Forall_Forall2_diag, Forall_forall. intros p _.
    unfold compose. by rewrite field_document_id.
  - apply Forall2_fmap, Forall_Forall2_diag, Forall_forall. intros p _.
    by rewrite field_relevance_score, relevance_score_result_of.
  - eapply StronglySorted_fmap; [| by apply resolvable_sorted].
    intros p q Hpq. by apply relevance_antimono.
Qed.

Lemma search_keeps_the_ranking_witness :
  exists d w' (kept : list joined) rs scores,
    DocumentService.search_documents demo.env demo.ready "hello" 5
      (set_tables [demo.notes]
         [demo.chunk "doc-1" 0 "hello" (1 # 4); demo.chunk "doc-1" 1 "world" (3 # 4)]
         demo.world) = (Ret d, w') /\
    d !! "results" = Some (VList rs) /\
    map fst kept `sublist_of`
      demo.line_index
        [demo.chunk "doc-1" 0 "hello" (1 # 4); demo.chunk "doc-1" 1 "world" (3 # 4)]
        [Finite 0] 5 /\
    Forall2 (fun (p : joined) r =>
               field "document_id" r = Some (VStr (vr_document_id p.1)))
            kept rs /\
    Forall2 (fun r x => field "relevance_score" r = Some (VFloat x)) rs scores /\
    StronglySorted (fun x1 x2 => fle x2 x1) scores.
Proof.
  apply (search_keeps_the_ranking demo.env demo.ready "hello" 5
           (set_tables [demo.notes]
              [demo.chunk "doc-1" 0 "hello" (1 # 4); demo.chunk "doc-1" 1 "world" (3 # 4)]
              demo.world)).
  - reflexivity.
  - constructor.
  - vm_compute. discriminate.
  - vm_compute. discriminate.
  - vm_compute. repeat constructor; discriminate.
Defined.

(** ** What never writes *)

Lemma read_only_ret {A} (a : A) : read_only (ret a).
Proof. done. Qed.

Lemma read_only_raise {A} (e : exn) : read_only (raise (A := A) e).
Proof. done. Qed.

Lemma read_only_gets {A} (f : World -> A) : read_only (gets f).
Proof. done. Qed.

Lemma read_only_collaborator : read_only collaborator.
Proof.
  intros w. destruct (collaborator w) as [r w'] eqn:H.
  apply collaborator_frame in H as (Hd & Hc & _). done.
Qed.

Lemma read_only_assign o : read_only (server.assign_document_service o).
Proof. done. Qed.

Lemma read_only_bind {A B} (m : M A) (k : A -> M B) :
  read_only m -> (forall a, read_only (k a)) -> read_only (bind m k).
Proof.
  intros Hm Hk w. rewrite bind_run. specialize (Hm w).
  destruct (m w) as [[a | e] w1]; [| done].
  destruct (Hk a w1) as [Hd Hc]. simpl in Hm. by rewrite Hd, Hc.
Qed.

Lemma read_only_try {A} (m : M A) (h : exn -> option (M A)) :
  read_only m -> (forall e handler, h e = Some handler -> read_only handler) ->
  read_only (try_except m h).
Proof.
  intros Hm Hh w. rewrite try_run. specialize (Hm w).
  destruct (m w) as [[a | e] w1]; [done |].
  destruct (h e) as [handler |] eqn:He; [| done].
  destruct (Hh e handler He w1) as [Hd Hc]. simpl in Hm. by rewrite Hd, Hc.
Qed.

#[local] Ltac frame :=
  repeat first
    [ apply read_only_ret
    | apply read_only_raise
    | apply read_only_gets
    | apply read_only_collaborator
    | apply read_only_assign
    | apply read_only_bind; [| intros ?]
    | apply read_only_try; [| intros ? ? [= <-]] ].

Lemma read_only_ensure_initialized self : read_only (DocumentService._ensure_initialized self).
Proof. unfold DocumentService._ensure_initialized. destruct (_initialized self); frame. Qed.

Lemma read_only_get_document_service : read_only server.get_document_service.
Proof.
  unfold server.get_document_service.
  apply read_only_bind; [frame |]. intros [doc_service |]; [frame |].
  unfold server.Config_from_env, server.DocumentService_new, DocumentService.initialize,
    LanceDBManager.initialize_database, EmbeddingService.load_model.
  frame.
Qed.

Lemma read_only_join_metadata vector_results search_results :
  read_only (DocumentService.join_metadata vector_results search_results).
Proof.
  revert search_results.
  induction vector_results as [| vr rest IH]; intros search_results; simpl; [frame |].
  apply read_only_bind; [| intros o; apply IH].
  unfold LanceDBManager.get_document_metadata. frame.
Qed.

Lemma read_only_list_documents E self limit offset :
  read_only (DocumentService.list_documents E self limit offset).
Proof.
  unfold DocumentService.list_documents.
  apply read_only_bind; [apply read_only_ensure_initialized | intros _].
  unfold LanceDBManager.list_all_documents, LanceDBManager.get_document_count. frame.
Qed.

Lemma read_only_search_documents E self query limit :
  read_only (DocumentService.search_documents E self query limit).
Proof.
  unfold DocumentService.search_documents.
  apply read_only_bind; [apply read_only_ensure_initialized | intros _].
  apply read_only_try; [| intros ? ? [= <-]; frame].
  destruct (str_eqb (strip query) ""); [frame |].
  apply read_only_bind; [unfold EmbeddingService.generate_embedding; frame |].
  intros [| x xs]; [frame |].
  apply read_only_bind; [unfold LanceDBManager.search_vectors; frame |]. intros vector_results.
  apply read_only_bind; [apply read_only_join_metadata | intros ?; frame].
Qed.

Lemma read_only_handlers (m : M dict) context :
  read_only m -> read_only (try_except m (server.handlers context)).
Proof. intros Hm. apply read_only_try; [done |]. intros e handler [= <-]. frame. Qed.

Lemma read_only_validate_limit_parameter limit lo hi name :
  read_only (errors.validate_limit_parameter limit lo hi name).
Proof.
  unfold errors.validate_limit_parameter.
  destruct limit as [l |]; [destruct ((l <? lo) || (hi <? l)) |]; frame.
Qed.

Lemma read_only_validate_offset_parameter offset hi :
  read_only (errors.validate_offset_parameter offset hi).
Proof.
  unfold errors.validate_offset_parameter.
  destruct ((offset <? 0) || (hi <? offset)); frame.
Qed.

Lemma read_only_validate_query_parameter query lo hi :
  read_only (errors.validate_query_parameter query lo hi).
Proof.
  unfold errors.validate_query_parameter.
  destruct ((Z.of_nat (length (strip query)) <? lo)
            || (hi <? Z.of_nat (length query))); frame.
Qed.

(** X13. The tools [list_documents] and [search_documents], also when
    they create the service first, and the operations
    [get_document_by_id] and [get_statistics], leave both tables as they
    were, whatever fails. *)
Theorem lookups_never_write (E : Env) (cfg : config.Config) :
  (forall limit offset, read_only (server.list_documents E limit offset)) /\
  (forall query limit, read_only (server.search_documents E query limit)) /\
  (forall self document_id, read_only (DocumentService.get_document_by_id E self document_id)) /\
  (forall self, read_only (DocumentService.get_statistics cfg self)).
Proof.
  split; [| split; [| split]].
  - intros limit offset. unfold server.list_documents. apply read_only_handlers.
    apply read_only_bind; [apply read_only_validate_limit_parameter | intros _].
    apply read_only_bind; [apply read_only_validate_offset_parameter | intros _].
    apply read_only_bind; [apply read_only_get_document_service | intros doc_service].
    apply read_only_list_documents.
  - intros query limit. unfold server.search_documents. apply read_only_handlers.
    apply read_only_bind; [apply read_only_validate_query_parameter | intros _].
    apply read_only_bind; [apply read_only_validate_limit_parameter | intros _].
    apply read_only_handlers.
    apply read_only_bind; [apply read_only_get_document_service | intros doc_service].
    apply read_only_search_documents.
  - intros self document_id. unfold DocumentService.get_document_by_id.
    apply read_only_bind; [apply read_only_ensure_initialized | intros _].
    apply read_only_try; [| intros ? ? [= <-]; frame].
    apply read_only_bind; [unfold LanceDBManager.get_document_metadata; frame |].
    intros [md |]; frame.
  - intros self. unfold DocumentService.get_statistics.
    apply read_only_bind; [apply read_only_ensure_initialized | intros _].
    unfold LanceDBManager.get_document_count. frame.
Qed.

(** ** Fetching one document *)

Lemma collaborator_raised w e w' :
  collaborator w = (Raise e, w') -> raised w' = S (raised w).
Proof.
  unfold collaborator. destruct (faults w) as [| [e0 |] fs]; intros [= <- <-]; done.
Qed.

Lemma collaborator_quiet w w' :
  collaborator w = (Ret tt, w') -> raised w' = raised w.
Proof.
  unfold collaborator. destruct (faults w) as [| [e0 |] fs]; intros [= <-]; done.
Qed.

Lemma lookup_metadata_Some docs document_id md :
  lookup_metadata docs document_id = Some md -> md ∈ docs /\ id md = document_id.
Proof.
  unfold lookup_metadata. intros H. apply find_some in H as [Hin Heq].
  split; [by apply list_elem_of_In | by apply str_eqb_eq].
Qed.

Lemma lookup_metadata_None docs document_id :
  lookup_metadata docs document_id = None -> Forall (fun md => id md <> document_id) docs.
Proof.
  unfold lookup_metadata. intros H. apply Forall_forall. intros md Hin Heq.
  apply list_elem_of_In in Hin.
  pose proof (find_none _ _ H md Hin) as Hfalse. simpl in Hfalse.
  apply str_eqb_eq in Heq. congruence.
Qed.

Lemma get_document_metadata_raise document_id w e w' :
  LanceDBManager.get_document_metadata document_id w = (Raise e, w') ->
  (raised w < raised w')%nat.
Proof.
  unfold LanceDBManager.get_document_metadata. rewrite bind_run.
  destruct (collaborator w) as [[[] | e0] w1] eqn:Hcall; [discriminate |].
  apply collaborator_raised in Hcall. intros [= _ <-]. lia.
Qed.

(** X14. [get_document_by_id] on an initialised service never raises.
    A dictionary it returns carries the requested id and describes a
    document of the store; [None] means that the lookup failed or that no
    document has that id, and the two cannot be told apart. *)
Theorem get_document_by_id_answers (E : Env) (self : DocumentService_obj) (document_id : str) (w : World) :
  _initialized self = true ->
  exists o w',
    DocumentService.get_document_by_id E self document_id w = (Ret o, w') /\
    match o with
    | Some d =>
        d !! "id" = Some (VStr document_id) /\
        exists md, md ∈ documents w /\ DocumentService.document_to_dict E md = VDict d
    | None =>
        (raised w < raised w')%nat \/
        Forall (fun md => id md <> document_id) (documents w)
    end.
Proof.
  intros Hinit.
  unfold DocumentService.get_document_by_id. rewrite bind_run, run_ensure_initialized by done.
  rewrite try_run, bind_run.
  destruct (LanceDBManager.get_document_metadata document_id w) as [[o | e] w1] eqn:Hget.
  - apply get_document_metadata_inv in Hget as [-> _].
    destruct (lookup_metadata (documents w) document_id) as [md |] eqn:Hmd.
    + apply lookup_metadata_Some in Hmd as [Hin Hid].
      cbn [ret]. eexists _, _. split; [reflexivity |]. split.
      * by rewrite <- Hid.
      * by exists md.
    + cbn [ret]. eexists _, _. split; [reflexivity |]. right.
      by apply lookup_metadata_None.
  - apply get_document_metadata_raise in Hget.
    cbn [ret]. eexists _, _. split; [reflexivity |]. by left.
Qed.

Lemma get_document_by_id_answers_witness :
  exists o w',
    DocumentService.get_document_by_id demo.env demo.ready "doc-2" demo.world = (Ret o, w') /\
    match o with
    | Some d =>
        d !! "id" = Some (VStr "doc-2") /\
        exists md, md ∈ documents demo.world /\
                   DocumentService.document_to_dict demo.env md = VDict d
    | None =>
        (raised demo.world < raised w')%nat \/
        Forall (fun md => id md <> "doc-2") (documents demo.world)
    end.
Proof.
  apply (get_document_by_id_answers demo.env demo.ready "doc-2" demo.world).
  reflexivity.
Defined.

Lemma run_extract_and_chunk E path w :
  calm w -> ContentExtractor.extract_and_chunk E path w = (Ret (read_and_chunk E path), tick w).
Proof.
  intros Hw. unfold ContentExtractor.extract_and_chunk. rewrite bind_run.
  by rewrite run_collaborator.
Qed.

Lemma run_generate_embeddings E texts w :
  calm w -> EmbeddingService.generate_embeddings E texts w = (Ret (embed_batch E texts), tick w).
Proof.
  intros Hw. unfold EmbeddingService.generate_embeddings. rewrite bind_run.
  by rewrite run_collaborator.
Qed.

Lemma run_add_document_vectors md cs w :
  calm w ->
  LanceDBManager.add_document_vectors md cs w =
    (Ret tt, set_tables (documents w ++ [md]) (chunks w ++ cs) (tick w)).
Proof.
  intros Hw. unfold LanceDBManager.add_document_vectors. rewrite bind_run.
  by rewrite run_collaborator.
Qed.

(** An ingestion in which nothing fails. *)
Lemma run_add_document E self file_path w :
  _initialized self = true -> calm w ->
  exists d w',
    DocumentService.add_document E self file_path w = (Ret d, w') /\
    calm w' /\
    documents w' = (documents w ++ [ingested_metadata E file_path])%list /\
    d !! "success" = Some (VBool true) /\
    d !! "document" =
      Some (DocumentService.document_to_dict E (ingested_metadata E file_path)).
Proof.
  intros Hinit Hw. unfold ingested_metadata.
  unfold DocumentService.add_document. rewrite bind_run, run_ensure_initialized by done.
  rewrite try_run, bind_run, try_run, bind_run, run_extract_and_chunk by done.
  cbn [ret]. destruct (read_and_chunk E file_path) as [metadata0 [| c cs]]; cbn [fst snd].
  - rewrite bind_run. cbn [ret]. rewrite bind_run, run_add_document_vectors by by apply calm_tick.
    cbn [ret]. eexists _, _. split; [reflexivity |].
    split; [by apply calm_set_tables; do 2 apply calm_tick |]. by repeat split.
  - rewrite !bind_run, run_generate_embeddings by by apply calm_tick.
    cbn [ret]. rewrite bind_run, run_add_document_vectors by by do 2 apply calm_tick.
    cbn [ret]. eexists _, _. split; [reflexivity |].
    split; [by apply calm_set_tables; do 3 apply calm_tick |]. by repeat split.
Qed.

Lemma lookup_metadata_snoc docs md :
  lookup_metadata docs (id md) = None ->
  lookup_metadata (docs ++ [md]) (id md) = Some md.
Proof.
  unfold lookup_metadata. induction docs as [| d0 docs IH]; simpl.
  - by rewrite str_eqb_refl.
  - destruct (str_eqb (id d0) (id md)); [done | apply IH].
Qed.

(** X15. A document added under an id that the store did not hold can
    be fetched by that id, and [get_document_by_id] returns the very
    dictionary that [add_document] reported under ["document"]. *)
Theorem added_document_can_be_fetched (E : Env) (self : DocumentService_obj) (file_path : str) (w : World) :
  _initialized self = true -> calm w ->
  lookup_metadata (documents w) (id (ingested_metadata E file_path)) = None ->
  exists d w1 doc w2,
    DocumentService.add_document E self file_path w = (Ret d, w1) /\
    d !! "success" = Some (VBool true) /\
    d !! "document" = Some (VDict doc) /\
    DocumentService.get_document_by_id E self (id (ingested_metadata E file_path)) w1 =
      (Ret (Some doc), w2).
Proof.
  intros Hinit Hw Hfresh.
  destruct (run_add_document E self file_path w Hinit Hw)
    as (d & w1 & Hadd & Hw1 & Hdocs & Hok & Hdoc).
  eexists d, w1, _, _. split; [exact Hadd |]. split; [exact Hok |].
  split; [exact Hdoc |].
  unfold DocumentService.get_document_by_id. rewrite bind_run, run_ensure_initialized by done.
  rewrite try_run, bind_run, run_get_document_metadata by done.
  fold (lookup_metadata (documents w1) (id (ingested_metadata E file_path))).
  rewrite Hdocs, lookup_metadata_snoc by done. reflexivity.
Qed.

Lemma added_document_can_be_fetched_witness :
  exists d w1 doc w2,
    DocumentService.add_document demo.env demo.ready "/kb/notes.txt"
      (set_tables [demo.guide] [] demo.world) = (Ret d, w1) /\
    d !! "success" = Some (VBool true) /\
    d !! "document" = Some (VDict doc) /\
    DocumentService.get_document_by_id demo.env demo.ready
      (id (ingested_metadata demo.env "/kb/notes.txt")) w1 = (Ret (Some doc), w2).
Proof.
  apply (added_document_can_be_fetched demo.env demo.ready "/kb/notes.txt"
           (set_tables [demo.guide] [] demo.world)).
  - reflexivity.
  - constructor.
  - reflexivity.
Defined.

(** ** Statistics *)

Lemma get_document_count_cases w :
  (exists w', LanceDBManager.get_document_count w =
                (Ret (Z.of_nat (length (documents w))), w') /\
              raised w' = raised w) \/
  (exists e w', LanceDBManager.get_document_count w = (Raise e, w') /\
                (raised w < raised w')%nat).
Proof.
  unfold LanceDBManager.get_document_count. rewrite bind_run.
  destruct (collaborator w) as [[[] | e] w1] eqn:Hcall.
  - left. pose proof (collaborator_quiet _ _ Hcall) as Hquiet.
    apply collaborator_frame in Hcall as (Hdocs & _ & _).
    rewrite bind_run. cbn [gets ret]. rewrite Hdocs. by eexists.
  - right. apply collaborator_raised in Hcall. eexists _, _. split; [reflexivity | lia].
Qed.

(** X16. [get_statistics] on an initialised service never raises: it
    reports the number of documents and the configured model and chunk
    size, or, when counting fails, zero documents, the model ["unknown"],
    chunk size 0 and no file types. *)
Theorem get_statistics_masks_failures (cfg : config.Config) (self : DocumentService_obj) (w : World) :
  _initialized self = true ->
  exists d w',
    DocumentService.get_statistics cfg self w = (Ret d, w') /\
    (raised w' = raised w /\
     d !! "document_count" = Some (VInt (Z.of_nat (length (documents w)))) /\
     d !! "embedding_model" = Some (VStr (config.model (config.embedding cfg))) /\
     d !! "chunk_size" = Some (VInt (config.chunk_size (config.processing cfg)))
     \/
     (raised w < raised w')%nat /\
     d !! "document_count" = Some (VInt 0) /\
     d !! "embedding_model" = Some (VStr "unknown") /\
     d !! "chunk_size" = Some (VInt 0) /\
     d !! "supported_file_types" = Some (VList [])).
Proof.
  intros Hinit.
  unfold DocumentService.get_statistics. rewrite bind_run, run_ensure_initialized by done.
  rewrite try_run, bind_run.
  destruct (get_document_count_cases w) as [(w1 & -> & Hquiet) | (e & w1 & -> & Hloud)].
  - cbn [ret]. eexists _, _. split; [reflexivity |]. left. by repeat split.
  - cbn [ret]. eexists _, _. split; [reflexivity |]. right. by repeat split.
Qed.

Lemma get_statistics_masks_failures_witness :
  exists d w',
    DocumentService.get_statistics sample.config demo.ready
      (sample.world_with None [Some sample.disk_full]) = (Ret d, w') /\
    (raised w' = raised (sample.world_with None [Some sample.disk_full]) /\
     d !! "document_count" =
       Some (VInt (Z.of_nat (length (documents (sample.world_with None [Some sample.disk_full]))))) /\
     d !! "embedding_model" = Some (VStr (config.model (config.embedding sample.config))) /\
     d !! "chunk_size" = Some (VInt (config.chunk_size (config.processing sample.config)))
     \/
     (raised (sample.world_with None [Some sample.disk_full]) < raised w')%nat /\
     d !! "document_count" = Some (VInt 0) /\
     d !! "embedding_model" = Some (VStr "unknown") /\
     d !! "chunk_size" = Some (VInt 0) /\
     d !! "supported_file_types" = Some (VList [])).
Proof.
  apply (get_statistics_masks_failures sample.config demo.ready
           (sample.world_with None [Some sample.disk_full])).
  reflexivity.
Defined.

(** ** The first call of a tool *)

Lemma run_validate_limit_none lo hi name w :
  errors.validate_limit_parameter None lo hi name w = (Ret tt, w).
Proof. reflexivity. Qed.

Lemma run_validate_offset offset hi w :
  0 <= offset <= hi -> errors.validate_offset_parameter offset hi w = (Ret tt, w).
Proof.
  intros H. unfold errors.validate_offset_parameter.
  by replace ((offset <? 0) || (hi <? offset)) with false by lia.
Qed.

(** X17. The first call of the tool [list_documents] with [limit = 0],
    when nothing fails, creates and initialises the service and returns
    one dict for every document from the offset on, in order and each with
    the eight fields of its document, without changing the tables. *)
Theorem first_list_documents_without_limit (E : Env) (offset : Z) (w : World) :
  calm w -> _document_service w = None -> 0 <= offset <= 100000 ->
  exists d w' returned,
    server.list_documents E (Some 0) offset w = (Ret d, w') /\
    d !! "success" = Some (VBool true) /\
    d !! "documents" = Some (VList returned) /\
    Forall2 (describes E) (drop (Z.to_nat offset) (documents w)) returned /\
    _document_service w' = Some {| _initialized := true |} /\
    documents w' = documents w /\ chunks w' = chunks w.
Proof.
  intros Hw Hnone Hoffset.
  destruct (run_get_document_service w Hw Hnone)
    as (w1 & Hget & Hw1 & Hdocs & Hchunks & Hsvc).
  unfold server.list_documents. cbv beta iota zeta.
  rewrite try_run, bind_run, run_validate_limit_none.
  rewrite bind_run, run_validate_offset by done.
  rewrite bind_run, Hget.
  unfold DocumentService.list_documents. rewrite bind_run, run_ensure_initialized by done.
  rewrite try_run, bind_run, run_list_all_documents by done.
  rewrite bind_run, run_get_document_count by by apply calm_tick.
  cbn [ret]. eexists _, _, _. split; [reflexivity |].
  split; [done |]. split; [reflexivity |].
  split; [rewrite <- Hdocs; exact (describes_document_to_dict E _) |].
  repeat split; done.
Qed.

Lemma first_list_documents_without_limit_witness :
  exists d w' returned,
    server.list_documents demo.env (Some 0) 1 demo.world = (Ret d, w') /\
    d !! "success" = Some (VBool true) /\
    d !! "documents" = Some (VList returned) /\
    Forall2 (describes demo.env) (drop (Z.to_nat 1) (documents demo.world)) returned /\
    _document_service w' = Some {| _initialized := true |} /\
    documents w' = documents demo.world /\ chunks w' = chunks demo.world.
Proof.
  apply (first_list_documents_without_limit demo.env 1 demo.world).
  - constructor.
  - reflexivity.
  - lia.
Defined.

(** X18. When its arguments pass validation, the tool
    [search_documents] searches for the stripped query, and the response
    echoes the stripped query, not the query as given. *)
Theorem search_tool_echoes_stripped_query (E : Env) (query : str) (limit : Z) (w : World) :
  errors.validate_query_parameter query 1 10000 w = (Ret tt, w) ->
  errors.validate_limit_parameter (Some limit) 1 100 "limit" w = (Ret tt, w) ->
  _document_service w = Some {| _initialized := true |} -> calm w ->
  strip (strip query) <> "" -> embed E (strip (strip query)) <> [] ->
  exists d w',
    server.search_documents E query limit w = (Ret d, w') /\
    d !! "success" = Some (VBool true) /\
    d !! "query" = Some (VStr (strip query)).
Proof.
  intros Hquery Hlimit Hready Hw Hblank Hvec.
  destruct (run_search_documents E {| _initialized := true |} (strip query) limit w
              eq_refl Hw Hblank Hvec) as (d & w' & Hrun & Hok & Hecho & _).
  exists d, w'. split; [| done].
  unfold server.search_documents. cbv beta iota zeta.
  rewrite try_run, bind_run, Hquery, bind_run, Hlimit, try_run, bind_run.
  unfold server.get_document_service at 1. rewrite bind_run.
  cbn [gets]. rewrite Hready. cbn [ret]. by rewrite Hrun.
Qed.

Lemma search_tool_echoes_stripped_query_witness :
  exists d w',
    server.search_documents demo.env demo.padded 5 (sample.world_with (Some demo.ready) []) =
      (Ret d, w') /\
    d !! "success" = Some (VBool true) /\
    d !! "query" = Some (VStr (strip demo.padded)).
Proof.
  apply (search_tool_echoes_stripped_query demo.env demo.padded 5
           (sample.world_with (Some demo.ready) [])).
  - reflexivity.
  - reflexivity.
  - reflexivity.
  - constructor.
  - vm_compute. discriminate.
  - vm_compute. discriminate.
Defined.

(** [str.strip] removes the Unicode whitespace at both ends, and only
    there. *)
Example strip_unicode_whitespace :
  strip demo.padded = "hello" /\
  strip demo.blank = "" /\
  strip ([32; 97; 160; 98; 32]%N) = [97; 160; 98]%N.
Proof. vm_compute. repeat split; reflexivity. Qed.

(** X19. [DocumentService.initialize] either returns the initialised
    state without any failure, or raises the wrapper ["Document service
    initialization failed: ..."] of the failure; when
    [initialize_database()] fails, [load_model()] is not called. *)
Theorem initialize_outcomes (self : DocumentService_obj) (w : World) :
  match DocumentService.initialize self w with
  | (Ret self', w') => _initialized self' = true /\ raised w' = raised w
  | (Raise e, w') =>
      (raised w < raised w')%nat /\
      exists cause,
        e = PyException ("Document service initialization failed: " +:+ str_exn cause)
  end /\
  (forall e fs,
     faults w = Some e :: fs ->
     DocumentService.initialize self w =
       (Raise (PyException ("Document service initialization failed: " +:+ str_exn e)),
        {| documents := documents w; chunks := chunks w;
           _document_service := _document_service w;
           faults := fs; raised := S (raised w) |})).
Proof.
  destruct w as [ds cs svc fs n]. split.
  - destruct fs as [| [e1 |] [| [e2 |] fs]]; cbn; eauto with lia.
  - intros e fs' Hf. simpl in Hf. subst fs. reflexivity.
Qed.
